(** * java-memory-horse-analysis: the [JavaProcessAnalyzer] class

    A shallow embedding of [src/java-memory-horse-analysis.py] and the
    properties of its parsers and of the report generator.

    Conventions of the embedding.
    - A Python [str] is a [string]; a character is a code point below 256.
    - A Python value that ends up in the report is a [pyval]; a [dict] is an
      association list in insertion order, as Python dictionaries are.
    - A Python computation that may raise is a [result]; [try]/[except] is
      [try_except].  Calls to the logger change no value and are left out.
    - The outside world (the JDK tools, the clock, the file system) is a set
      of [Variable]s of the section [Analyzer]. *)

From Stdlib Require Import String Ascii List Bool Arith ZArith Lia.
Import ListNotations.
Open Scope string_scope.
Open Scope list_scope.

(** ** Exceptions and results *)

(** The exception classes the program can meet; all of them derive from
    Python's [Exception]. *)
Inductive exn : Type :=
| TimeoutExpired
| OSError
| IndexError
| ValueError
| KeyError
| AttributeError
| TypeError.

Inductive result (A : Type) : Type :=
| Ok (a : A)
| Raise (e : exn).
Arguments Ok {A} a.
Arguments Raise {A} e.

Definition bind {A B : Type} (m : result A) (k : A -> result B) : result B :=
  match m with
  | Ok a => k a
  | Raise e => Raise e
  end.

Notation "x <- m ;; k" := (bind m (fun x => k))
  (at level 61, m at next level, right associativity).

(** [try: body except Exception: handler]. *)
Definition try_except {A : Type} (body : result A) (handler : exn -> result A)
  : result A :=
  match body with
  | Ok a => Ok a
  | Raise e => handler e
  end.

(** A [for] loop whose body may raise: the loop stops at the first exception
    and the state reached by the completed iterations is kept next to it. *)
Fixpoint for_partial {S A : Type} (body : S -> A -> result S) (l : list A) (s : S)
  : S * option exn :=
  match l with
  | [] => (s, None)
  | x :: l' =>
      match body s x with
      | Ok s' => for_partial body l' s'
      | Raise e => (s, Some e)
      end
  end.

Definition for_each {S A : Type} (body : S -> A -> result S) (l : list A) (s : S)
  : result S :=
  match for_partial body l s with
  | (s', None) => Ok s'
  | (_, Some e) => Raise e
  end.

(** [l[i]] *)
Definition index {A : Type} (l : list A) (i : nat) : result A :=
  match nth_error l i with
  | Some a => Ok a
  | None => Raise IndexError
  end.

(** ** Python string methods *)

(** [str.isspace] on the code points below 256. *)
Definition isspace (c : ascii) : bool :=
  let n := nat_of_ascii c in
  (Nat.leb 9 n && Nat.leb n 13) || (Nat.leb 28 n && Nat.leb n 32)
  || Nat.eqb n 133 || Nat.eqb n 160.

Definition nonempty (s : string) : bool :=
  match s with
  | EmptyString => false
  | String _ _ => true
  end.

Fixpoint lstrip (s : string) : string :=
  match s with
  | EmptyString => EmptyString
  | String c s' => if isspace c then lstrip s' else s
  end.

Fixpoint rstrip (s : string) : string :=
  match s with
  | EmptyString => EmptyString
  | String c s' =>
      let r := rstrip s' in
      if isspace c && negb (nonempty r) then EmptyString else String c r
  end.

(** [s.strip()] *)
Definition strip (s : string) : string := rstrip (lstrip s).

(** The pieces of [s] between the characters that satisfy [p]: the first
    piece and the list of the others. *)
Fixpoint split_by (p : ascii -> bool) (s : string) : string * list string :=
  match s with
  | EmptyString => (EmptyString, [])
  | String c s' =>
      let '(h, t) := split_by p s' in
      if p c then (EmptyString, h :: t) else (String c h, t)
  end.

(** [s.split(sep)] for a one-character separator. *)
Definition split (sep : ascii) (s : string) : list string :=
  let '(h, t) := split_by (Ascii.eqb sep) s in h :: t.

(** [s.split()]: the maximal runs of non-whitespace characters. *)
Definition split_ws (s : string) : list string :=
  let '(h, t) := split_by isspace s in filter nonempty (h :: t).

(** The text before and after the first [sep] of [s]. *)
Fixpoint partition (sep : ascii) (s : string) : option (string * string) :=
  match s with
  | EmptyString => None
  | String c s' =>
      if Ascii.eqb c sep then Some (EmptyString, s')
      else match partition sep s' with
           | Some (a, b) => Some (String c a, b)
           | None => None
           end
  end.

(** [s.split(sep, 1)] *)
Definition split1 (sep : ascii) (s : string) : list string :=
  match partition sep s with
  | Some (a, b) => [a; b]
  | None => [s]
  end.

(** [s.startswith(p)] *)
Definition startswith (s p : string) : bool := prefix p s.

(** [sub in s] *)
Fixpoint contains (sub s : string) : bool :=
  prefix sub s ||
  match s with
  | EmptyString => false
  | String _ s' => contains sub s'
  end.

(** [sep.join(l)] *)
Definition join (sep : string) (l : list string) : string := String.concat sep l.

(** [s[n:]] *)
Fixpoint drop (n : nat) (s : string) : string :=
  match n, s with
  | O, _ => s
  | S n', String _ s' => drop n' s'
  | S _, EmptyString => EmptyString
  end.

(** The text of one double quote, and a newline and a tab. *)
Definition quote : string := String "034" EmptyString.
Definition nl : string := String "010" EmptyString.
Definition tab : string := String "009" EmptyString.

(** ** Python values *)

#[local] Unset Elimination Schemes.
Inductive pyval : Type :=
| VNone
| VInt (z : Z)
| VStr (s : string)
| VList (l : list pyval)
| VDict (d : list (string * pyval)).
#[local] Set Elimination Schemes.

Definition dict : Type := list (string * pyval).

(** [d.get(k)] *)
Fixpoint dict_get (k : string) (d : dict) : option pyval :=
  match d with
  | [] => None
  | (k', v) :: d' => if String.eqb k' k then Some v else dict_get k d'
  end.

(** [d[k] = v]: an existing key keeps its place, a new one goes last. *)
Fixpoint dict_set (k : string) (v : pyval) (d : dict) : dict :=
  match d with
  | [] => [(k, v)]
  | (k', v') :: d' =>
      if String.eqb k' k then (k', v) :: d' else (k', v') :: dict_set k v d'
  end.

Definition keys (d : dict) : list string := map fst d.

(** Truth value of a dictionary: [if d:]. *)
Definition truthy (d : dict) : bool :=
  match d with
  | [] => false
  | _ :: _ => true
  end.

(** [d[k].append(x)] *)
Definition append_at (k : string) (x : pyval) (d : dict) : result dict :=
  match dict_get k d with
  | Some (VList l) => Ok (dict_set k (VList (l ++ [x])) d)
  | Some _ => Raise AttributeError
  | None => Raise KeyError
  end.

(** [d[k][k2] = v] *)
Definition setitem_at (k k2 : string) (v : pyval) (d : dict) : result dict :=
  match dict_get k d with
  | Some (VDict inner) => Ok (dict_set k (VDict (dict_set k2 v inner)) d)
  | Some _ => Raise TypeError
  | None => Raise KeyError
  end.

(** ** The regular expression [<%.*?%>] with [re.DOTALL] *)

(** The shortest text up to and including the first [%>] of [s]: the text
    before the [%>] and the text after it.  With [re.DOTALL] the dot matches
    every character, the newline too. *)
Fixpoint until_close (s : string) : option (string * string) :=
  match s with
  | EmptyString => None
  | String c s' =>
      if prefix "%>" s then Some (EmptyString, drop 2 s)
      else match until_close s' with
           | Some (b, rest) => Some (String c b, rest)
           | None => None
           end
  end.

(** A match of the pattern at the start of [s]: the matched text and the
    text after it. *)
Definition match_at (s : string) : option (string * string) :=
  if prefix "<%" s then
    match until_close (drop 2 s) with
    | Some (b, rest) => Some ("<%" ++ b ++ "%>", rest)%string
    | None => None
    end
  else None.

(** The scan of [re.findall]: leftmost match first, the search resumes where
    the match ended.  Every step consumes a character, so [S (length s)]
    steps are enough (lemma [findall_fuel_enough]). *)
Fixpoint findall_fuel (fuel : nat) (s : string) : list string :=
  match fuel with
  | O => []
  | S fuel' =>
      match match_at s with
      | Some (m, rest) => m :: findall_fuel fuel' rest
      | None =>
          match s with
          | EmptyString => []
          | String _ s' => findall_fuel fuel' s'
          end
      end
  end.

(** [re.findall(r'<%.*?%>', content, re.DOTALL)] *)
Definition re_findall_scriptlets (content : string) : list string :=
  findall_fuel (S (String.length content)) content.

(** ** The analyzer *)

Record CompletedProcess : Type := {
  returncode : Z;
  stdout : string
}.

Section Analyzer.

(** [subprocess.run(argv, stdout=PIPE, stderr=PIPE, text=True, timeout=30)]:
    the completed process, or the exception raised ([TimeoutExpired] after
    30 seconds, [OSError] when the tool cannot be started, ...).  Within a
    run of [generate_report] every command line is used once. *)
Variable subprocess_run : list string -> result CompletedProcess.

(** [datetime.now().isoformat()] *)
Variable now_isoformat : string.

(** [with open(path, 'w') as f: json.dump(report, f, indent=2)] *)
Variable dump_json : string -> pyval -> result unit.

(** [open(path).read()], [os.path.getsize] and the ISO form of
    [os.path.getmtime]. *)
Variable read_text : string -> result string.
Variable getsize : string -> result Z.
Variable getmtime_isoformat : string -> result string.

(** The body of the loop of [get_java_processes]. *)
Definition jps_line (processes : dict) (line : string) : result dict :=
  if nonempty line then
    let parts := split_ws line in
    if Nat.ltb 1 (List.length parts) then
      pid <- index parts 0 ;;
      let command := join " " (skipn 1 parts) in
      Ok (dict_set pid (VStr command) processes)
    else Ok processes
  else Ok processes.

Definition get_java_processes : result dict :=
  try_except
    (result <- subprocess_run ["jps"; "-v"] ;;
     let processes := [] in
     if Z.eqb (returncode result) 0 then
       for_each jps_line (split "010" (strip (stdout result))) processes
     else Ok processes)
    (fun _ => Ok []).

(** The body of the loop of [_parse_classloader_output]; the state is
    [(loaders, current_loader)].  A dictionary appended to [loaders] is
    never changed afterwards: [current_loader] is bound to a fresh one
    right after. *)
Definition classloader_line (st : list pyval * dict) (line : string)
  : result (list pyval * dict) :=
  let '(loaders, current_loader) := st in
  if nonempty (strip line) then
    if startswith line "ClassLoader" then
      let loaders :=
        if truthy current_loader then loaders ++ [VDict current_loader]
        else loaders in
      Ok (loaders, [("type", VStr (strip line))])
    else if truthy current_loader then
      let parts := split ":" (strip line) in
      if Nat.eqb (List.length parts) 2 then
        k <- index parts 0 ;;
        v <- index parts 1 ;;
        Ok (loaders, dict_set (strip k) (VStr (strip v)) current_loader)
      else Ok st
    else Ok st
  else Ok st.

(** What follows the loops of the two parsers: flush the record in
    progress. *)
Definition flush (st : list pyval * dict) : list pyval :=
  let '(records, current) := st in
  if truthy current then records ++ [VDict current] else records.

Definition parse_classloader_lines (lines : list string) : result (list pyval) :=
  st <- for_each classloader_line lines ([], []) ;;
  Ok (flush st).

Definition _parse_classloader_output (output : string) : result (list pyval) :=
  parse_classloader_lines (split "010" output).

(** [components] is still empty wherever the body can raise. *)
Definition analyze_web_components (pid : string) : result (list pyval) :=
  let components := [] in
  try_except
    (let cmd := ("jcmd " ++ pid ++ " VM.classloaders")%string in
     result <- subprocess_run (split_ws cmd) ;;
     if Z.eqb (returncode result) 0 then
       loaders <- _parse_classloader_output (stdout result) ;;
       Ok (components ++ loaders)
     else Ok components)
    (fun _ => Ok components).

(** The body of the loop of [_parse_thread_dump]; the state is
    [(threads, current_thread)]. *)
Definition thread_line (st : list pyval * dict) (line : string)
  : result (list pyval * dict) :=
  let '(threads, current_thread) := st in
  if startswith line quote then
    let threads :=
      if truthy current_thread then threads ++ [VDict current_thread]
      else threads in
    name <- index (split "034" line) 1 ;;
    Ok (threads, [("name", VStr name); ("state", VNone); ("stack", VList [])])
  else if contains "java.lang.Thread.State:" line && truthy current_thread then
    state <- index (split ":" line) 1 ;;
    Ok (threads, dict_set "state" (VStr (strip state)) current_thread)
  else if startswith (strip line) "at " && truthy current_thread then
    current_thread <- append_at "stack" (VStr (strip line)) current_thread ;;
    Ok (threads, current_thread)
  else Ok st.

Definition parse_thread_lines (lines : list string) : result (list pyval) :=
  st <- for_each thread_line lines ([], []) ;;
  Ok (flush st).

Definition _parse_thread_dump (output : string) : result (list pyval) :=
  parse_thread_lines (split "010" output).

Definition analyze_threads (pid : string) : result (list pyval) :=
  let threads := [] in
  try_except
    (let cmd := ("jstack " ++ pid)%string in
     result <- subprocess_run (split_ws cmd) ;;
     if Z.eqb (returncode result) 0 then _parse_thread_dump (stdout result)
     else Ok threads)
    (fun _ => Ok threads).

(** The body of the loop of [analyze_system_properties]. *)
Definition property_line (properties : dict) (line : string) : result dict :=
  if contains "=" line then
    match split1 "=" line with
    | [key; value] => Ok (dict_set (strip key) (VStr (strip value)) properties)
    | _ => Raise ValueError
    end
  else Ok properties.

(** [properties] is filled inside the [try]: an exception in the loop would
    leave the entries of the lines before it. *)
Definition analyze_system_properties (pid : string) : result dict :=
  let properties := [] in
  let cmd := ("jcmd " ++ pid ++ " VM.system_properties")%string in
  match subprocess_run (split_ws cmd) with
  | Raise _ => Ok properties
  | Ok result =>
      if Z.eqb (returncode result) 0 then
        Ok (fst (for_partial property_line (split "010" (stdout result)) properties))
      else Ok properties
  end.

Definition count_scriptlets (content : string) : Z :=
  Z.of_nat (List.length (re_findall_scriptlets content)).

(** [None] is the [return None] after a logged exception. *)
Definition _analyze_single_jsp (file_path : string) : option dict :=
  match (content <- read_text file_path ;;
         size <- getsize file_path ;;
         mtime <- getmtime_isoformat file_path ;;
         Ok [("path", VStr file_path);
             ("size", VInt size);
             ("last_modified", VStr mtime);
             ("scriptlets", VInt (count_scriptlets content))]) with
  | Ok record => Some record
  | Raise _ => None
  end.

(** The body of the loop of [generate_report]. *)
Definition report_process (report : dict) (item : string * pyval) : result dict :=
  let '(pid, command) := item in
  web_components <- analyze_web_components pid ;;
  threads <- analyze_threads pid ;;
  system_properties <- analyze_system_properties pid ;;
  let process_info :=
    [("command", command);
     ("web_components", VList web_components);
     ("threads", VList threads);
     ("system_properties", VDict system_properties)] in
  setitem_at "processes" pid (VDict process_info) report.

(** [output_file] is [None] for the default argument. *)
Definition generate_report (output_file : option string) : result pyval :=
  let report :=
    [("timestamp", VStr now_isoformat);
     ("processes", VDict []);
     ("warnings", VList [])] in
  java_processes <- get_java_processes ;;
  report <- for_each report_process java_processes report ;;
  _ <- match output_file with
       | Some path =>
           if nonempty path then dump_json path (VDict report) else Ok tt
       | None => Ok tt
       end ;;
  Ok (VDict report).

End Analyzer.

(** ** The common shape of the two record parsers

    Both [_parse_classloader_output] and [_parse_thread_dump] read their
    input line by line: a header line flushes the record in progress and
    starts a new one, any other line can only change the record in
    progress, and is lost when there is none. *)

Section RecordParser.

Variable is_header : string -> bool.
Variable new_record : string -> dict.
Variable add_line : dict -> string -> dict.

Definition record_step (st : list pyval * dict) (line : string)
  : list pyval * dict :=
  let '(records, current) := st in
  if is_header line then
    ((if truthy current then records ++ [VDict current] else records),
     new_record line)
  else if truthy current then (records, add_line current line)
  else st.

(** The lines before the first header, and after them every header with
    the lines that follow it up to the next header. *)
Fixpoint group (lines : list string)
  : list string * list (string * list string) :=
  match lines with
  | [] => ([], [])
  | l :: ls =>
      let '(lead, segments) := group ls in
      if is_header l then ([], (l, lead) :: segments)
      else (l :: lead, segments)
  end.

Definition record_of (segment : string * list string) : pyval :=
  VDict (fold_left add_line (snd segment) (new_record (fst segment))).

(** The loop over the lines and the flush that follows it. *)
Definition parse_records (lines : list string) : list pyval :=
  flush (fold_left record_step lines ([], [])).

End RecordParser.

(** *** Class loader records *)

Definition is_loader_marker (line : string) : bool :=
  startswith line "ClassLoader".

Definition new_loader (line : string) : dict := [("type", VStr (strip line))].

(** The field of a line whose trimmed form has exactly one colon: the text
    before the colon and the text after it, both trimmed. *)
Definition loader_field (line : string) : option (string * string) :=
  match partition ":" (strip line) with
  | Some (k, v) => if contains ":" v then None else Some (strip k, strip v)
  | None => None
  end.

Definition add_loader_field (d : dict) (line : string) : dict :=
  match loader_field line with
  | Some (k, v) => dict_set k (VStr v) d
  | None => d
  end.

Definition loader_record (marker : string) (body : list string) : pyval :=
  record_of new_loader add_loader_field (marker, body).

(** The field of a line as the specification words it: split on the first
    colon, whatever follows it. *)
Definition first_colon_field (line : string) : option (string * string) :=
  match partition ":" (strip line) with
  | Some (k, v) => Some (strip k, strip v)
  | None => None
  end.

Definition add_first_colon_field (d : dict) (line : string) : dict :=
  match first_colon_field line with
  | Some (k, v) => dict_set k (VStr v) d
  | None => d
  end.

Definition first_colon_record (marker : string) (body : list string) : pyval :=
  record_of new_loader add_first_colon_field (marker, body).

(** *** Thread records *)

Definition is_thread_header (line : string) : bool := startswith line quote.

Definition thread_record (name : string) (state : pyval) (stack : list pyval)
  : dict :=
  [("name", VStr name); ("state", state); ("stack", VList stack)].

Definition new_thread (line : string) : dict :=
  thread_record (nth 1 (split "034" line) EmptyString) VNone [].

Definition add_thread_line (d : dict) (line : string) : dict :=
  if contains "java.lang.Thread.State:" line then
    dict_set "state" (VStr (strip (nth 1 (split ":" line) ""))) d
  else if startswith (strip line) "at " then
    match dict_get "stack" d with
    | Some (VList l) => dict_set "stack" (VList (l ++ [VStr (strip line)])) d
    | _ => d
    end
  else d.

(** *** Process lines *)

(** The input lines that are not empty. *)
Definition nonempty_lines (output : string) : list string :=
  filter nonempty (split "010" output).

(** A line of the process listing: a process id and a command of at least
    one token. *)
Definition well_formed_line (line : string) : Prop :=
  2 <= List.length (split_ws line).

Definition line_pid (line : string) : string := hd "" (split_ws line).

Definition line_command (line : string) : string :=
  join " " (tl (split_ws line)).

Definition line_entry (line : string) : string * pyval :=
  (line_pid line, VStr (line_command line)).

(** The command of the last line whose first token is [pid]. *)
Definition last_command (pid : string) (lines : list string) : option pyval :=
  dict_get pid (rev (map line_entry lines)).

(** *** Property lines *)

Definition property_of (line : string) : option (string * string) :=
  match partition "=" line with
  | Some (k, v) => Some (strip k, strip v)
  | None => None
  end.

(** The value of the last line whose key is [key]. *)
Fixpoint last_property (key : string) (lines : list string) : option pyval :=
  match lines with
  | [] => None
  | l :: ls =>
      match last_property key ls with
      | Some v => Some v
      | None =>
          match property_of l with
          | Some (k, v) => if String.eqb k key then Some (VStr v) else None
          | None => None
          end
      end
  end.

(** *** Outcomes of a tool *)

(** The invocation timed out or raised, or the tool exited with a code that
    is not zero. *)
Definition invocation_failed (o : result CompletedProcess) : Prop :=
  match o with
  | Raise _ => True
  | Ok r => returncode r <> 0%Z
  end.

Definition jps_argv : list string := ["jps"; "-v"].

Definition classloaders_argv (pid : string) : list string :=
  split_ws ("jcmd " ++ pid ++ " VM.classloaders")%string.

Definition jstack_argv (pid : string) : list string :=
  split_ws ("jstack " ++ pid)%string.

Definition properties_argv (pid : string) : list string :=
  split_ws ("jcmd " ++ pid ++ " VM.system_properties")%string.

(** ** Sample inputs *)

(** A tool that never answers in time, and one that exits with code 1. *)
Definition timed_out : list string -> result CompletedProcess :=
  fun _ => Raise TimeoutExpired.

Definition exit_1 : list string -> result CompletedProcess :=
  fun _ => Ok {| returncode := 1; stdout := "1234 Main" |}.

(** A tool that prints [out] and exits with code 0. *)
Definition prints (out : string) : list string -> result CompletedProcess :=
  fun _ => Ok {| returncode := 0; stdout := out |}.

(** ** The report, piece by piece *)

(** The value a component returns, [default] standing for a raised
    exception (lemmas [analyze_web_components_returns] and the like show
    there is none). *)
Definition value_of {A : Type} (r : result A) (default : A) : A :=
  match r with
  | Ok a => a
  | Raise _ => default
  end.

Definition process_record (subprocess_run : list string -> result CompletedProcess)
    (item : string * pyval) : string * pyval :=
  (fst item,
   VDict [("command", snd item);
          ("web_components",
           VList (value_of (analyze_web_components subprocess_run (fst item)) []));
          ("threads",
           VList (value_of (analyze_threads subprocess_run (fst item)) []));
          ("system_properties",
           VDict (value_of (analyze_system_properties subprocess_run (fst item)) []))]).

Definition report_of (timestamp : string) (processes : dict) : dict :=
  [("timestamp", VStr timestamp);
   ("processes", VDict processes);
   ("warnings", VList [])].

(** The effect of one line of the process listing on the mapping. *)
Definition jps_update (processes : dict) (line : string) : dict :=
  match split_ws line with
  | pid :: _ :: _ => dict_set pid (VStr (line_command line)) processes
  | _ => processes
  end.

(** A file system on which no file can be written. *)
Definition read_only : string -> pyval -> result unit :=
  fun _ _ => Raise OSError.

(** A file system on which every write succeeds. *)
Definition writable : string -> pyval -> result unit :=
  fun _ _ => Ok tt.

(** A host with one Java process, 4242, and the answers of the four tools
    about it. *)
Definition sample_host (argv : list string) : result CompletedProcess :=
  if list_eq_dec string_dec argv ["jps"; "-v"] then
    Ok {| returncode := 0;
          stdout := "4242 Bootstrap start" ++ nl ++ "4300 Jps -v" ++ nl |}
  else if list_eq_dec string_dec argv ["jcmd"; "4242"; "VM.classloaders"] then
    Ok {| returncode := 0;
          stdout := "ClassLoader app" ++ nl ++ "  parent: platform" ++ nl |}
  else if list_eq_dec string_dec argv ["jstack"; "4242"] then
    Ok {| returncode := 0;
          stdout := quote ++ "main" ++ quote ++ " #1 prio=5" ++ nl
                    ++ "   java.lang.Thread.State: RUNNABLE" ++ nl
                    ++ tab ++ "at a.b.c(X.java:1)" ++ nl |}
  else if list_eq_dec string_dec argv ["jcmd"; "4242"; "VM.system_properties"] then
    Ok {| returncode := 0; stdout := "java.version=17" ++ nl |}
  else if list_eq_dec string_dec argv ["jstack"; "4300"] then
    Raise TimeoutExpired
  else
    Ok {| returncode := 1; stdout := "" |}.

(** The state of [_parse_thread_dump] between two lines: no thread in
    progress, or one with its three entries. *)
Definition thread_shaped (d : dict) : Prop :=
  d = [] \/ exists name state stack, d = thread_record name state stack.

(** The five lines of the thread dump of the specification. *)
Definition sample_dump : string :=
  quote ++ "main" ++ quote
  ++ " #1 prio=5 os_prio=0 tid=0x01 nid=0x02 runnable" ++ nl
  ++ "   java.lang.Thread.State: RUNNABLE" ++ nl
  ++ tab ++ "at a.b.c(X.java:1)" ++ nl
  ++ tab ++ "at d.e.f(Y.java:2)" ++ nl
  ++ quote ++ "main2" ++ quote ++ " #2 daemon prio=5".

(** The effect of one line of the listing of the properties on the
    mapping. *)
Definition property_update (properties : dict) (line : string) : dict :=
  match property_of line with
  | Some (k, v) => dict_set k (VStr v) properties
  | None => properties
  end.

(** *** The tokens of a text, line by line

    [scan] reads a text from its end and keeps the token in progress, the
    other tokens of the line in progress and the tokens of the lines after
    it.  It tells what trimming the text does to its lines. *)

Definition cons_token (tok : string) (line : list string) : list string :=
  if nonempty tok then tok :: line else line.

Fixpoint scan (s : string) : string * list string * list (list string) :=
  match s with
  | EmptyString => (EmptyString, [], [])
  | String c s' =>
      let '(tok, line, lines) := scan s' in
      if Ascii.eqb "010" c then (EmptyString, [], cons_token tok line :: lines)
      else if isspace c then (EmptyString, cons_token tok line, lines)
      else (String c tok, line, lines)
  end.

Definition nonnil {A : Type} (l : list A) : bool :=
  match l with
  | [] => false
  | _ :: _ => true
  end.

(** The tokens of the lines that have some. *)
Definition token_lines (s : string) : list (list string) :=
  let '(tok, line, lines) := scan s in
  filter nonnil (cons_token tok line :: lines).

(** The effect of the tokens of one line on the mapping of the processes. *)
Definition tokens_update (processes : dict) (tokens : list string) : dict :=
  match tokens with
  | pid :: _ :: _ => dict_set pid (VStr (join " " (tl tokens))) processes
  | _ => processes
  end.

(** Two states of [scan] that differ by lines without tokens only. *)
Definition scan_equiv (a b : string * list string * list (list string)) : Prop :=
  fst (fst a) = fst (fst b) /\ snd (fst a) = snd (fst b) /\
  filter nonnil (snd a) = filter nonnil (snd b).


(** ** The JSP scanner *)

(** [s.endswith(suffix)] *)
Fixpoint endswith (s suffix : string) : bool :=
  String.eqb s suffix ||
  match s with
  | EmptyString => false
  | String _ s' => endswith s' suffix
  end.

Section Scanner.

(** [os.walk(directory)]: the triples [(root, dirs, files)] that the walk
    yields and, when it does not run to its end, the exception that stops
    it. *)
Variable os_walk :
  string -> list (string * list string * list string) * option exn.

(** [os.path.join(root, file)] *)
Variable path_join : string -> string -> string.

Variable read_text : string -> result string.
Variable getsize : string -> result Z.
Variable getmtime_isoformat : string -> result string.

(** The body of the inner loop of [analyze_jsp_files].  Nothing in it
    raises: [_analyze_single_jsp] catches the exceptions of the file
    itself. *)
Definition jsp_file (root : string) (results : list pyval) (file : string)
  : list pyval :=
  if endswith file ".jsp" then
    let file_path := path_join root file in
    match _analyze_single_jsp read_text getsize getmtime_isoformat file_path with
    | Some record =>
        if truthy record then results ++ [VDict record] else results
    | None => results
    end
  else results.

(** The body of the outer loop. *)
Definition jsp_directory (results : list pyval)
    (entry : string * list string * list string) : list pyval :=
  let '(root, _, files) := entry in
  fold_left (jsp_file root) files results.

(** The [try] guards the walk alone; an exception of the walk ends the loop
    and leaves the records of the triples before it. *)
Definition analyze_jsp_files (directory : string) : list pyval :=
  let '(entries, _) := os_walk directory in
  fold_left jsp_directory entries [].

End Scanner.

(** ** More words for the properties *)

(** Every character of [s] satisfies [p]. *)
Fixpoint all_chars (p : ascii -> bool) (s : string) : bool :=
  match s with
  | EmptyString => true
  | String c s' => p c && all_chars p s'
  end.

(** A token: not empty, no whitespace. *)
Definition is_token (s : string) : bool :=
  nonempty s && all_chars (fun c => negb (isspace c)) s.

(** A line of the process listing that [get_java_processes] keeps. *)
Definition has_command (line : string) : bool :=
  Nat.ltb 1 (List.length (split_ws line)).

(** The value of the last line of a class loader whose field is [key]. *)
Fixpoint last_field (key : string) (body : list string) : option string :=
  match body with
  | [] => None
  | l :: ls =>
      match last_field key ls with
      | Some v => Some v
      | None =>
          match loader_field l with
          | Some (k, v) => if String.eqb k key then Some v else None
          | None => None
          end
      end
  end.

(** A line that can change a class loader record or start one. *)
Definition loader_line_counts (line : string) : bool :=
  is_loader_marker line ||
  match loader_field line with
  | Some _ => true
  | None => false
  end.

(** The name in a thread header: the text after its first character, up to
    the next quote when there is one. *)
Definition thread_name (header : string) : string :=
  match header with
  | EmptyString => EmptyString
  | String _ s =>
      match partition "034" s with
      | Some (name, _) => name
      | None => s
      end
  end.

Definition is_state_line (line : string) : bool :=
  contains "java.lang.Thread.State:" line.

Definition is_frame_line (line : string) : bool :=
  negb (is_state_line line) && startswith (strip line) "at ".

(** The text between the first colon of a line and the next one, or the
    end of the line, trimmed. *)
Definition state_text (line : string) : string :=
  match partition ":" line with
  | Some (_, after) =>
      match partition ":" after with
      | Some (state, _) => strip state
      | None => strip after
      end
  | None => EmptyString
  end.

(** The state that the lines of a thread leave: that of the last state
    line. *)
Definition thread_state (body : list string) : pyval :=
  fold_left (fun s l => if is_state_line l then VStr (state_text l) else s)
    body VNone.

(** The stack that the lines of a thread leave: its frames, in order. *)
Definition thread_stack (body : list string) : list pyval :=
  map (fun l => VStr (strip l)) (filter is_frame_line body).

(** A line that can change a thread record or start one. *)
Definition thread_line_counts (line : string) : bool :=
  is_thread_header line || is_state_line line || is_frame_line line.

(** A state and a stack as [_parse_thread_dump] can build them. *)
Definition trimmed (s : string) : Prop := strip s = s.

Definition state_shaped (v : pyval) : Prop :=
  v = VNone \/ exists t, v = VStr t /\ trimmed t.

Definition frame_shaped (v : pyval) : Prop :=
  exists t, v = VStr t /\ trimmed t /\ startswith t "at " = true.

(** Gaps and matches, one after the other: a gap, a match, a gap, ... *)
Fixpoint interleave (gaps matches : list string) : string :=
  match gaps, matches with
  | g :: gs, m :: ms => g ++ m ++ interleave gs ms
  | g :: _, [] => g
  | [], _ => EmptyString
  end.

(** A directory tree of two directories, and files that can all be read but
    [b.jsp]. *)
Definition sample_walk (directory : string)
  : list (string * list string * list string) * option exn :=
  ([(directory, ["WEB-INF"], ["a.jsp"; "readme.txt"; "b.jsp"]);
    ((directory ++ "/WEB-INF")%string, [], ["c.jsp"; "web.xml"])],
   Some OSError).

Definition sample_join (root file : string) : string :=
  (root ++ "/" ++ file)%string.

Definition sample_read (path : string) : result string :=
  if String.eqb path "app/b.jsp" then Raise OSError
  else Ok "<% out.print(1); %>".

Definition sample_size (path : string) : result Z := Ok 19%Z.

Definition sample_mtime (path : string) : result string :=
  Ok "2026-01-01T00:00:00".

(** What one line of the listing can put into the mapping of the processes:
    a token as the key, tokens joined by single spaces as the value. *)
Definition listed (entry : string * pyval) : Prop :=
  is_token (fst entry) = true /\
  exists tok toks,
    Forall (fun t => is_token t = true) (tok :: toks) /\
    snd entry = VStr (join " " (tok :: toks)).

(** The listing with Windows line ends and some indentation. *)
Definition crlf_listing : string :=
  "  4242   Bootstrap  start" ++ String "013" nl ++ nl
  ++ tab ++ "4300 Jps -v" ++ String "013" nl.

(** An entry of the mapping of the system properties: a trimmed key with no
    [=] and a trimmed text as the value. *)
Definition property_shaped (entry : string * pyval) : Prop :=
  trimmed (fst entry) /\ contains "=" (fst entry) = false /\
  exists t, snd entry = VStr t /\ trimmed t.

(** A thread record as [_parse_thread_dump] returns them. *)
Definition thread_record_shaped (r : pyval) : Prop :=
  exists name state stack,
    r = VDict (thread_record name state stack) /\
    state_shaped state /\ Forall frame_shaped stack.

(** A thread dump with lines that [_parse_thread_dump] passes over. *)
Definition noisy_dump : string :=
  "Full thread dump OpenJDK 64-Bit Server VM:" ++ nl ++ nl
  ++ quote ++ "main" ++ quote ++ " #1 prio=5" ++ nl
  ++ "   java.lang.Thread.State: WAITING (on object monitor)" ++ nl
  ++ tab ++ "at java.lang.Object.wait(Native Method)" ++ nl
  ++ tab ++ "- waiting on <0x01> (a java.lang.Object)" ++ nl
  ++ tab ++ "at a.b.c(X.java:1)" ++ nl
  ++ nl
  ++ "   Locked ownable synchronizers:" ++ nl
  ++ tab ++ "- None".

(** A match of the scriptlet pattern: [<%], a text without [%>], [%>]. *)
Definition scriptlet_shaped (m : string) : Prop :=
  exists body,
    m = ("<%" ++ body ++ "%>")%string /\ contains "%>" body = false.

(** The total length of the texts of a list. *)
Definition total_length (l : list string) : nat :=
  fold_right (fun s n => String.length s + n) 0 l.

(** The paths that [analyze_jsp_files] hands to [_analyze_single_jsp]: for
    every triple of the walk, its files whose name ends in [.jsp], joined to
    its root. *)
Definition jsp_paths (path_join : string -> string -> string)
    (entries : list (string * list string * list string)) : list string :=
  flat_map
    (fun entry : string * list string * list string =>
       let '(root, _, files) := entry in
       map (path_join root) (filter (fun f => endswith f ".jsp") files))
    entries.

(** The record of a file that can be read. *)
Definition jsp_record (file_path content : string) (size : Z) (mtime : string)
  : pyval :=
  VDict [("path", VStr file_path);
         ("size", VInt size);
         ("last_modified", VStr mtime);
         ("scriptlets", VInt (count_scriptlets content))].

(** The record of a path, or nothing when the file cannot be read. *)
Definition jsp_records (read_text : string -> result string)
    (getsize : string -> result Z)
    (getmtime_isoformat : string -> result string)
    (file_path : string) : list pyval :=
  match _analyze_single_jsp read_text getsize getmtime_isoformat file_path with
  | Some record => [VDict record]
  | None => []
  end.

(** [t] is [s] without the whitespace at its two ends: [s] is whitespace,
    [t], whitespace, and [t] neither starts nor ends with a whitespace
    character. *)
Definition is_trim_of (s t : string) : Prop :=
  (exists l r,
      s = (l ++ t ++ r)%string /\
      all_chars isspace l = true /\ all_chars isspace r = true) /\
  (forall c t', t = String c t' -> isspace c = false) /\
  (forall t' c, t = (t' ++ String c EmptyString)%string -> isspace c = false).

(** A listing of properties with blanks around the keys and the values. *)
Definition padded_properties : string :=
  "  java.home =  /opt/jdk 17 " ++ nl
  ++ tab ++ "user.dir" ++ tab ++ "=" ++ tab ++ "/srv/app = 1" ++ String "013" nl.

(** A thread dump whose second stack frame holds the marker of a state
    line. *)
Definition marker_frame_dump : string :=
  quote ++ "main" ++ quote ++ " #1 prio=5" ++ nl
  ++ "   java.lang.Thread.State: RUNNABLE" ++ nl
  ++ tab ++ "at a.b.c(X.java:1)" ++ nl
  ++ tab ++ "at x.java.lang.Thread.State: BLOCKED" ++ nl
  ++ quote ++ "main2" ++ quote ++ " #2 daemon prio=5".
(** * Properties *)

(** ** Loops *)

Lemma for_each_ok {S A : Type} (body : S -> A -> result S) (f : S -> A -> S)
      (P : S -> Prop) :
  (forall s x, P s -> body s x = Ok (f s x)) ->
  (forall s x, P s -> P (f s x)) ->
  forall l s, P s -> for_each body l s = Ok (fold_left f l s).
Proof.
  intros Hbody Hinv l. unfold for_each.
  induction l as [|x l IH]; intros s Hs; simpl.
  - reflexivity.
  - rewrite (Hbody s x Hs). apply IH. now apply Hinv.
Qed.

Lemma for_partial_ok {S A : Type} (body : S -> A -> result S) (f : S -> A -> S) :
  (forall s x, body s x = Ok (f s x)) ->
  forall l s, for_partial body l s = (fold_left f l s, None).
Proof.
  intros Hbody l. induction l as [|x l IH]; intros s; simpl.
  - reflexivity.
  - rewrite Hbody. apply IH.
Qed.

(** ** Components never raise *)

Section Failures.

Variable subprocess_run : list string -> result CompletedProcess.

Lemma get_java_processes_returns :
  exists d, get_java_processes subprocess_run = Ok d.
Proof.
  unfold get_java_processes, try_except.
  destruct (_ <- subprocess_run _ ;; _) as [d|e]; eauto.
Qed.

Lemma analyze_web_components_returns pid :
  exists l, analyze_web_components subprocess_run pid = Ok l.
Proof.
  unfold analyze_web_components, try_except.
  destruct (_ <- subprocess_run _ ;; _) as [d|e]; eauto.
Qed.

Lemma analyze_threads_returns pid :
  exists l, analyze_threads subprocess_run pid = Ok l.
Proof.
  unfold analyze_threads, try_except.
  destruct (_ <- subprocess_run _ ;; _) as [d|e]; eauto.
Qed.

Lemma analyze_system_properties_returns pid :
  exists d, analyze_system_properties subprocess_run pid = Ok d.
Proof.
  unfold analyze_system_properties.
  destruct (subprocess_run _) as [r|e]; eauto.
  destruct (Z.eqb _ _); eauto.
Qed.

Lemma get_java_processes_failed :
  invocation_failed (subprocess_run jps_argv) ->
  get_java_processes subprocess_run = Ok [].
Proof.
  unfold get_java_processes, invocation_failed, try_except, jps_argv.
  destruct (subprocess_run _) as [r|e]; simpl; auto.
  intros H. apply Z.eqb_neq in H. now rewrite H.
Qed.

End Failures.

(** C1.  Whenever the invocation of a tool times out, raises an exception or
    ends with a non-zero exit code, [get_java_processes] and
    [analyze_system_properties] return the empty mapping and
    [analyze_web_components] and [analyze_threads] the empty list; the
    result is a returned value, not an exception. *)
Theorem C1_failed_invocation_gives_empty :
  forall (subprocess_run : list string -> result CompletedProcess) (pid : string),
    (invocation_failed (subprocess_run jps_argv) ->
     get_java_processes subprocess_run = Ok []) /\
    (invocation_failed (subprocess_run (classloaders_argv pid)) ->
     analyze_web_components subprocess_run pid = Ok []) /\
    (invocation_failed (subprocess_run (jstack_argv pid)) ->
     analyze_threads subprocess_run pid = Ok []) /\
    (invocation_failed (subprocess_run (properties_argv pid)) ->
     analyze_system_properties subprocess_run pid = Ok []).
Proof.
  intros run pid.
  unfold get_java_processes, analyze_web_components, analyze_threads,
    analyze_system_properties, classloaders_argv, jstack_argv,
    properties_argv, jps_argv, invocation_failed, try_except.
  repeat split; intros H;
    destruct (run _) as [r|e]; simpl; try reflexivity;
    apply Z.eqb_neq in H; rewrite H; reflexivity.
Qed.

Lemma C1_witness :
  (get_java_processes timed_out = Ok [] /\
   analyze_web_components timed_out "1234" = Ok [] /\
   analyze_threads exit_1 "1234" = Ok [] /\
   analyze_system_properties exit_1 "1234" = Ok []).
Proof.
  destruct (C1_failed_invocation_gives_empty timed_out "1234") as (H1 & H2 & _ & _).
  destruct (C1_failed_invocation_gives_empty exit_1 "1234") as (_ & _ & H3 & H4).
  split; [|split; [|split]].
  - apply H1. exact I.
  - apply H2. exact I.
  - apply H3. simpl. lia.
  - apply H4. simpl. lia.
Defined.

(** ** Dictionaries *)

Lemma dict_get_set_same k v d : dict_get k (dict_set k v d) = Some v.
Proof.
  induction d as [|[k' v'] d IH]; simpl.
  - now rewrite String.eqb_refl.
  - destruct (String.eqb k' k) eqn:E; simpl; rewrite E; auto.
Qed.

Lemma dict_get_set_other k k' v d :
  k' <> k -> dict_get k' (dict_set k v d) = dict_get k' d.
Proof.
  intros Hne. induction d as [|[k0 v0] d IH]; simpl.
  - destruct (String.eqb k k') eqn:E; auto.
    apply String.eqb_eq in E. congruence.
  - destruct (String.eqb k0 k) eqn:E; simpl.
    + apply String.eqb_eq in E. subst k0.
      destruct (String.eqb k k') eqn:E'; auto.
      apply String.eqb_eq in E'. congruence.
    + now rewrite IH.
Qed.

Lemma dict_set_new k v d : ~ In k (keys d) -> dict_set k v d = d ++ [(k, v)].
Proof.
  induction d as [|[k' v'] d IH]; simpl; intros Hn; auto.
  destruct (String.eqb k' k) eqn:E.
  - apply String.eqb_eq in E. tauto.
  - f_equal. apply IH. tauto.
Qed.

Lemma keys_dict_set_old k v d : In k (keys d) -> keys (dict_set k v d) = keys d.
Proof.
  induction d as [|[k' v'] d IH]; simpl; intros Hin; [tauto|].
  destruct (String.eqb k' k) eqn:E; simpl; auto.
  f_equal. apply IH. destruct Hin as [->|]; auto.
  now rewrite String.eqb_refl in E.
Qed.

Lemma keys_dict_set_nodup k v d : NoDup (keys d) -> NoDup (keys (dict_set k v d)).
Proof.
  intros Hd. destruct (in_dec string_dec k (keys d)) as [Hin|Hn].
  - now rewrite keys_dict_set_old.
  - rewrite dict_set_new by assumption. unfold keys. rewrite map_app. simpl.
    apply NoDup_app; auto.
    + constructor; [intros []|constructor].
    + intros x Hx [<-|[]]. auto.
Qed.

Lemma dict_set_truthy k v d : truthy (dict_set k v d) = true.
Proof. destruct d as [|[k' v'] d]; simpl; auto. now destruct (String.eqb k' k). Qed.

(** Filling an empty dictionary with entries of distinct keys gives the
    entries, in order. *)
Lemma fold_dict_set_nodup (A : Type) (key : A -> string) (val : A -> pyval) :
  forall items acc,
    NoDup (keys acc ++ map key items) ->
    fold_left (fun d x => dict_set (key x) (val x) d) items acc
    = acc ++ map (fun x => (key x, val x)) items.
Proof.
  induction items as [|x items IH]; intros acc Hnd; simpl.
  - now rewrite app_nil_r.
  - assert (Hx : ~ In (key x) (keys acc)).
    { intros Hin. apply NoDup_remove_2 in Hnd. apply Hnd.
      apply in_or_app. now left. }
    rewrite dict_set_new by assumption.
    rewrite IH.
    + now rewrite <- app_assoc.
    + unfold keys in *. rewrite map_app. simpl. now rewrite <- app_assoc.
Qed.

(** ** The process listing *)

Lemma jps_line_ok processes line :
  jps_line processes line = Ok (jps_update processes line).
Proof.
  unfold jps_line, jps_update, line_command.
  destruct line as [|c line]; [reflexivity|].
  cbn [nonempty].
  destruct (split_ws (String c line)) as [|pid [|tok toks]]; reflexivity.
Qed.

Lemma jps_update_nodup processes line :
  NoDup (keys processes) -> NoDup (keys (jps_update processes line)).
Proof.
  intros H. unfold jps_update.
  destruct (split_ws line) as [|pid [|tok toks]]; auto.
  now apply keys_dict_set_nodup.
Qed.

Lemma jps_loop lines :
  for_each jps_line lines [] = Ok (fold_left jps_update lines []).
Proof.
  apply (for_each_ok jps_line jps_update (fun _ => True)); auto.
  intros. apply jps_line_ok.
Qed.

Lemma fold_jps_update_nodup lines :
  forall d, NoDup (keys d) -> NoDup (keys (fold_left jps_update lines d)).
Proof.
  induction lines as [|l lines IH]; intros d Hd; simpl; auto.
  apply IH. now apply jps_update_nodup.
Qed.

(** The value of [get_java_processes] after a listing that succeeded. *)
Lemma get_java_processes_success run out r :
  run jps_argv = Ok r -> returncode r = 0%Z -> stdout r = out ->
  get_java_processes run
  = Ok (fold_left jps_update (split "010" (strip out)) []).
Proof.
  intros Hrun Hrc Hout. unfold get_java_processes, try_except.
  fold jps_argv. rewrite Hrun. simpl. rewrite Hrc, Hout. simpl.
  now rewrite jps_loop.
Qed.

Lemma get_java_processes_nodup run :
  exists d, get_java_processes run = Ok d /\ NoDup (keys d).
Proof.
  destruct (run jps_argv) as [r|e] eqn:Hrun.
  - destruct (Z.eq_dec (returncode r) 0) as [Hrc|Hrc].
    + rewrite (get_java_processes_success run (stdout r) r) by auto.
      eexists; split; [reflexivity|].
      apply fold_jps_update_nodup. constructor.
    + exists []. split; [|constructor].
      apply get_java_processes_failed.
      unfold invocation_failed. now rewrite Hrun.
  - exists []. split; [|constructor].
    apply get_java_processes_failed.
    unfold invocation_failed. now rewrite Hrun.
Qed.

(** ** The report *)

Section Report.

Variable subprocess_run : list string -> result CompletedProcess.
Variable now_isoformat : string.
Variable dump_json : string -> pyval -> result unit.

Lemma report_process_ok processes item :
  report_process subprocess_run (report_of now_isoformat processes) item
  = Ok (report_of now_isoformat
          (dict_set (fst item) (snd (process_record subprocess_run item))
             processes)).
Proof.
  destruct item as [pid command]. unfold report_process, process_record.
  cbn [fst snd].
  destruct (analyze_web_components_returns subprocess_run pid) as [wc ->].
  destruct (analyze_threads_returns subprocess_run pid) as [th ->].
  destruct (analyze_system_properties_returns subprocess_run pid) as [sp ->].
  reflexivity.
Qed.

Lemma report_loop items :
  forall processes,
    for_each (report_process subprocess_run) items
      (report_of now_isoformat processes)
    = Ok (report_of now_isoformat
            (fold_left
               (fun d item =>
                  dict_set (fst item)
                    (snd (process_record subprocess_run item)) d)
               items processes)).
Proof.
  unfold for_each.
  induction items as [|item items IH]; intros processes; simpl.
  - reflexivity.
  - rewrite report_process_ok. apply IH.
Qed.

(** The report that [generate_report] builds before it writes it. *)
Lemma generate_report_built :
  exists java_processes,
    get_java_processes subprocess_run = Ok java_processes /\
    forall output_file,
      let report :=
        VDict (report_of now_isoformat
                 (map (process_record subprocess_run) java_processes)) in
      generate_report subprocess_run now_isoformat dump_json output_file
      = (_ <- match output_file with
              | Some path =>
                  if nonempty path then dump_json path report else Ok tt
              | None => Ok tt
              end ;;
         Ok report).
Proof.
  destruct (get_java_processes_nodup subprocess_run) as (jp & Hjp & Hnd).
  exists jp. split; [assumption|]. intros output_file report.
  unfold generate_report. rewrite Hjp. simpl.
  change [("timestamp", VStr now_isoformat); ("processes", VDict []);
          ("warnings", VList [])] with (report_of now_isoformat []).
  rewrite report_loop. simpl.
  rewrite (fold_dict_set_nodup _ fst
             (fun item => snd (process_record subprocess_run item))) by assumption.
  reflexivity.
Qed.

End Report.

(** C7 (as amended).  [generate_report] returns the report it built in
    memory when no output path is given, and the same report when a path is
    given and the file is written; the report has the keys [timestamp],
    [processes] and [warnings], in this order, and [processes] maps every
    process id of [get_java_processes] to a record with the keys [command],
    [web_components], [threads] and [system_properties]. *)
Theorem C7_generate_report_returns_report :
  forall (subprocess_run : list string -> result CompletedProcess)
         (now_isoformat : string)
         (dump_json : string -> pyval -> result unit),
  exists java_processes processes,
    get_java_processes subprocess_run = Ok java_processes /\
    let report := VDict (report_of now_isoformat processes) in
    generate_report subprocess_run now_isoformat dump_json None = Ok report /\
    (forall path,
        nonempty path = false \/ dump_json path report = Ok tt ->
        generate_report subprocess_run now_isoformat dump_json (Some path)
        = Ok report) /\
    keys (report_of now_isoformat processes)
    = ["timestamp"; "processes"; "warnings"] /\
    keys processes = keys java_processes /\
    (forall pid info,
        In (pid, info) processes ->
        exists record,
          info = VDict record /\
          keys record
          = ["command"; "web_components"; "threads"; "system_properties"]).
Proof.
  intros run now dump.
  destruct (generate_report_built run now dump) as (jp & Hjp & Hgen).
  exists jp, (map (process_record run) jp).
  split; [assumption|]. cbv zeta.
  split; [apply (Hgen None)|].
  split.
  { intros path Hw. rewrite (Hgen (Some path)). cbv zeta.
    destruct Hw as [-> | ->]; [reflexivity|].
    now destruct (nonempty path). }
  split; [reflexivity|].
  split.
  { unfold keys. rewrite map_map. reflexivity. }
  intros pid info Hin. apply in_map_iff in Hin as ([pid' cmd] & Heq & _).
  unfold process_record in Heq. injection Heq as _ <-.
  eexists. split; reflexivity.
Qed.

Lemma C7_witness :
  exists report,
    generate_report sample_host "2026-01-01T00:00:00" writable None
    = Ok report /\
    generate_report sample_host "2026-01-01T00:00:00" writable
      (Some "java_analysis_report.json")
    = Ok report.
Proof.
  destruct (C7_generate_report_returns_report
              sample_host "2026-01-01T00:00:00" writable)
    as (jp & processes & _ & Hnone & Hsome & _).
  exists (VDict (report_of "2026-01-01T00:00:00" processes)).
  split.
  - exact Hnone.
  - apply Hsome. right. reflexivity.
Defined.

(** C7 as stated fails: with an output path whose file cannot be written,
    [generate_report] raises the error of the write and returns no
    report. *)
Lemma C7_counterexample :
  generate_report sample_host "2026-01-01T00:00:00" read_only
    (Some "java_analysis_report.json")
  = Raise OSError /\
  ~ (exists report,
        generate_report sample_host "2026-01-01T00:00:00" read_only
          (Some "java_analysis_report.json")
        = Ok report).
Proof.
  assert (H : generate_report sample_host "2026-01-01T00:00:00" read_only
                (Some "java_analysis_report.json") = Raise OSError)
    by (vm_compute; reflexivity).
  split; [exact H|].
  intros [report Hr]. rewrite H in Hr. discriminate.
Qed.

(** C8.  Whatever the tools answer, the report that [generate_report]
    returns has the empty list under [warnings]; and [generate_report]
    returns a report unless writing the output file raises. *)
Theorem C8_warnings_always_empty :
  forall (subprocess_run : list string -> result CompletedProcess)
         (now_isoformat : string)
         (dump_json : string -> pyval -> result unit)
         (output_file : option string),
    match generate_report subprocess_run now_isoformat dump_json output_file with
    | Ok report =>
        exists d, report = VDict d /\ dict_get "warnings" d = Some (VList [])
    | Raise e =>
        exists path report,
          output_file = Some path /\ dump_json path report = Raise e
    end.
Proof.
  intros run now dump output_file.
  destruct (generate_report_built run now dump) as (jp & _ & Hgen).
  rewrite (Hgen output_file). cbv zeta.
  destruct output_file as [path|]; simpl.
  - destruct (nonempty path); simpl.
    + destruct (dump path _) as [[]|e] eqn:Hd; simpl.
      * eexists. split; reflexivity.
      * eauto.
    + eexists. split; reflexivity.
  - eexists. split; reflexivity.
Qed.

(** ** Strings *)

Lemma split_cons sep s : exists h t, split sep s = h :: t.
Proof. unfold split. destruct (split_by _ s). eauto. Qed.

(** [split] cuts at the first separator and goes on after it. *)
Lemma split_partition sep s :
  split sep s = match partition sep s with
                | Some (a, b) => a :: split sep b
                | None => [s]
                end.
Proof.
  unfold split. induction s as [|c s IH]; simpl.
  - reflexivity.
  - rewrite (Ascii.eqb_sym sep c).
    destruct (split_by (Ascii.eqb sep) s) as [h t] eqn:Hs.
    destruct (Ascii.eqb c sep) eqn:Hc.
    + now rewrite Hs.
    + destruct (partition sep s) as [[a b]|]; congruence.
Qed.

Lemma prefix_partition sep :
  forall sub s,
    prefix sub s = true -> partition sep sub <> None -> partition sep s <> None.
Proof.
  induction sub as [|a sub IH]; intros s Hp Hn; simpl in *.
  - congruence.
  - destruct s as [|b s]; [discriminate|]. cbn [prefix] in Hp.
    destruct (ascii_dec a b) as [<-|]; [|discriminate].
    simpl. destruct (Ascii.eqb a sep); [congruence|].
    specialize (IH s Hp).
    destruct (partition sep sub) as [[x y]|]; [|congruence].
    destruct (partition sep s) as [[x' y']|]; [congruence|].
    exfalso. apply IH; congruence.
Qed.

Lemma contains_partition sep sub :
  partition sep sub <> None ->
  forall s, contains sub s = true -> partition sep s <> None.
Proof.
  intros Hn. induction s as [|c s IH]; cbn [contains]; intros Hc.
  - destruct sub; [simpl in Hn; congruence|simpl in Hc; discriminate].
  - apply orb_true_iff in Hc as [Hp|Hc].
    + exact (prefix_partition sep sub _ Hp Hn).
    + simpl. destruct (Ascii.eqb c sep); [congruence|].
      specialize (IH Hc). destruct (partition sep s) as [[x y]|]; congruence.
Qed.

Lemma contains_char_partition sep s :
  contains (String sep "") s = false <-> partition sep s = None.
Proof.
  induction s as [|c s IH]; cbn [contains partition].
  - simpl. tauto.
  - cbn [prefix]. destruct (Ascii.eqb c sep) eqn:E.
    + apply Ascii.eqb_eq in E. subst c.
      destruct (ascii_dec sep sep); [|congruence].
      replace (prefix "" s) with true by now destruct s.
      simpl. split; intros; discriminate.
    + destruct (ascii_dec sep c) as [->|].
      { rewrite Ascii.eqb_refl in E. discriminate. }
      simpl. rewrite IH.
      destruct (partition sep s) as [[x y]|]; split; intros; congruence.
Qed.

(** The second piece exists as soon as the separator occurs. *)
Lemma index_split_1 sep s :
  partition sep s <> None ->
  index (split sep s) 1 = Ok (nth 1 (split sep s) "").
Proof.
  intros Hn. rewrite split_partition.
  destruct (partition sep s) as [[a b]|]; [|congruence].
  destruct (split_cons sep b) as (h & t & ->). reflexivity.
Qed.

Lemma startswith_char c s :
  startswith s (String c "") = true -> exists s', s = String c s'.
Proof.
  unfold startswith. destruct s as [|b s]; simpl; [discriminate|].
  destruct (ascii_dec c b) as [<-|]; [eauto|discriminate].
Qed.

Lemma lstrip_nonspace c s : isspace c = false -> lstrip (String c s) = String c s.
Proof. intros H. simpl. now rewrite H. Qed.

Lemma rstrip_nonspace c s :
  isspace c = false -> rstrip (String c s) = String c (rstrip s).
Proof. intros H. simpl. now rewrite H. Qed.

Lemma strip_nonspace c s :
  isspace c = false -> strip (String c s) = String c (rstrip s).
Proof.
  intros H. unfold strip. rewrite lstrip_nonspace by assumption.
  now apply rstrip_nonspace.
Qed.

(** ** Record parsers in general *)

Section RecordParserFacts.

Variable is_header : string -> bool.
Variable new_record : string -> dict.
Variable add_line : dict -> string -> dict.

Hypothesis new_record_truthy : forall l, truthy (new_record l) = true.
Hypothesis add_line_truthy :
  forall d l, truthy d = true -> truthy (add_line d l) = true.

Local Abbreviation step := (record_step is_header new_record add_line).
Local Abbreviation grp := (group is_header).
Local Abbreviation rec_of := (record_of new_record add_line).

Local Abbreviation parse := (parse_records is_header new_record add_line).

Lemma group_cons l ls :
  grp (l :: ls)
  = (if is_header l then ([], (l, fst (grp ls)) :: snd (grp ls))
     else (l :: fst (grp ls), snd (grp ls))).
Proof. simpl. now destruct (group is_header ls). Qed.

Lemma flush_fold lines :
  forall records current,
    flush (fold_left step lines (records, current))
    = records
      ++ (if truthy current
          then [VDict (fold_left add_line (fst (grp lines)) current)]
          else [])
      ++ map rec_of (snd (grp lines)).
Proof.
  induction lines as [|l ls IH]; intros records current.
  - simpl. destruct (truthy current); simpl; now rewrite ?app_nil_r.
  - cbn [fold_left]. rewrite group_cons. unfold record_step at 2.
    destruct (is_header l) eqn:Hh.
    + rewrite IH, new_record_truthy. cbn [fst snd map fold_left].
      destruct (truthy current); cbn [app];
        rewrite <- ?app_assoc; reflexivity.
    + destruct (truthy current) eqn:Ht.
      * rewrite IH, add_line_truthy by assumption. reflexivity.
      * rewrite IH, Ht. reflexivity.
Qed.

Lemma parse_records_group lines :
  parse lines = map rec_of (snd (grp lines)).
Proof.
  unfold parse_records. now rewrite flush_fold.
Qed.

Lemma group_no_header lines :
  Forall (fun l => is_header l = false) lines -> grp lines = (lines, []).
Proof.
  induction 1 as [|l ls Hl _ IH]; simpl; [reflexivity|].
   simpl. now rewrite IH, Hl.
Qed.

Lemma group_app pre rest :
  fst (grp rest) = [] ->
  grp (pre ++ rest) = (fst (grp pre), snd (grp pre) ++ snd (grp rest)).
Proof.
  intros Hr.  induction pre as [|l ls IH]; simpl.
  - rewrite <- Hr. now destruct (group is_header rest).
  - rewrite IH. destruct (group is_header ls) as [lead segments].
    simpl. now destruct (is_header l).
Qed.

Lemma group_header h rest :
  is_header h = true ->
  grp (h :: rest) = ([], (h, fst (grp rest)) :: snd (grp rest)).
Proof.
  intros Hh.  simpl.
  destruct (group is_header rest). now rewrite Hh.
Qed.

(** Lines before the first header leave no trace. *)
Lemma parse_records_lead pre rest :
  Forall (fun l => is_header l = false) pre ->
  parse (pre ++ rest) = parse rest.
Proof.
  intros Hpre. rewrite !parse_records_group. f_equal.
   induction Hpre as [|l ls Hl _ IH]; simpl; [reflexivity|].
  destruct (group is_header (ls ++ rest)) as [lead segments].
  now rewrite Hl.
Qed.

(** A header closes what comes before it. *)
Lemma parse_records_header pre h rest :
  is_header h = true ->
  parse (pre ++ h :: rest)
  = parse pre ++ parse (h :: rest).
Proof.
  intros Hh. rewrite !parse_records_group.
  rewrite group_app by now rewrite group_header.
  cbn [snd]. now rewrite map_app.
Qed.

(** The record of a header takes the lines up to the next header, or to
    the end of the input. *)
Lemma parse_records_segment h body post :
  is_header h = true ->
  Forall (fun l => is_header l = false) body ->
  fst (grp post) = [] ->
  parse (h :: body ++ post)
  = rec_of (h, body) :: parse post.
Proof.
  intros Hh Hbody Hpost. rewrite !parse_records_group.
  rewrite group_header by assumption.
  rewrite group_app by assumption.
  rewrite group_no_header by assumption.
  cbn [fst snd map app]. reflexivity.
Qed.

Lemma parse_records_length lines :
  List.length (parse lines)
  = List.length (filter is_header lines).
Proof.
  rewrite parse_records_group, length_map. 
  induction lines as [|l ls IH]; simpl; [reflexivity|].
  destruct (group is_header ls) as [lead segments].
  destruct (is_header l); simpl in *; congruence.
Qed.

Lemma parse_records_from_header lines :
  Forall (fun r => exists h body,
              is_header h = true /\ In h lines /\ r = rec_of (h, body))
    (parse lines).
Proof.
  rewrite parse_records_group. apply Forall_forall. intros r Hr.
  apply in_map_iff in Hr as ([h body] & <- & Hin).
  exists h, body. split; [|split; [|reflexivity]].
  - revert h body Hin. 
    induction lines as [|l ls IH]; simpl; [tauto|].
    destruct (group is_header ls) as [lead segments].
    destruct (is_header l) eqn:Hl; simpl; intros h body Hin.
    + destruct Hin as [Heq|Hin]; [congruence|eauto].
    + eauto.
  - revert h body Hin. 
    induction lines as [|l ls IH]; simpl; [tauto|].
    destruct (group is_header ls) as [lead segments].
    destruct (is_header l) eqn:Hl; simpl; intros h body Hin.
    + destruct Hin as [Heq|Hin]; [left; congruence|right; eauto].
    + right. eauto.
Qed.

End RecordParserFacts.

(** ** Class loader records *)

Lemma prefix_cons_inv a p b s :
  prefix (String a p) (String b s) = true -> a = b /\ prefix p s = true.
Proof. cbn [prefix]. destruct (ascii_dec a b); [auto|discriminate]. Qed.

Lemma marker_nonblank line :
  is_loader_marker line = true -> nonempty (strip line) = true.
Proof.
  unfold is_loader_marker, startswith. destruct line as [|c line].
  - cbn [prefix]. discriminate.
  - intros H. apply prefix_cons_inv in H as [<- _].
    now rewrite strip_nonspace.
Qed.

Lemma blank_no_field line : nonempty (strip line) = false -> loader_field line = None.
Proof.
  unfold loader_field. destruct (strip line); [reflexivity|discriminate].
Qed.

(** A trimmed line gives two pieces exactly when it has one colon. *)
Lemma split_colon_field line :
  match loader_field line with
  | Some (k, v) =>
      exists a b, split ":" (strip line) = [a; b] /\ k = strip a /\ v = strip b
  | None => List.length (split ":" (strip line)) <> 2
  end.
Proof.
  unfold loader_field. rewrite split_partition.
  destruct (partition ":" (strip line)) as [[a b]|]; [|simpl; lia].
  rewrite split_partition.
  destruct (contains ":" b) eqn:Hc.
  - destruct (partition ":" b) as [[a' b']|] eqn:Hp.
    + destruct (split_cons ":" b') as (h & t & ->). simpl. lia.
    + apply contains_char_partition in Hp. congruence.
  - apply contains_char_partition in Hc. rewrite Hc. eauto.
Qed.

Lemma classloader_line_ok st line :
  classloader_line st line
  = Ok (record_step is_loader_marker new_loader add_loader_field st line).
Proof.
  destruct st as [loaders current].
  unfold classloader_line, record_step, add_loader_field.
  fold (is_loader_marker line).
  destruct (nonempty (strip line)) eqn:Hb.
  - destruct (is_loader_marker line); [reflexivity|].
    destruct (truthy current); [|reflexivity].
    pose proof (split_colon_field line) as Hf.
    destruct (loader_field line) as [[k v]|].
    + destruct Hf as (a & b & -> & -> & ->). reflexivity.
    + apply Nat.eqb_neq in Hf. now rewrite Hf.
  - destruct (is_loader_marker line) eqn:Hm.
    + apply marker_nonblank in Hm. congruence.
    + rewrite blank_no_field by assumption. now destruct (truthy current).
Qed.

Lemma add_loader_field_truthy d line :
  truthy d = true -> truthy (add_loader_field d line) = true.
Proof.
  unfold add_loader_field. destruct (loader_field line) as [[k v]|]; auto.
  intros _. apply dict_set_truthy.
Qed.

Lemma parse_classloader_lines_ok lines :
  parse_classloader_lines lines
  = Ok (parse_records is_loader_marker new_loader add_loader_field lines).
Proof.
  unfold parse_classloader_lines, parse_records.
  rewrite (for_each_ok classloader_line
             (record_step is_loader_marker new_loader add_loader_field)
             (fun _ => True)); auto.
  intros. apply classloader_line_ok.
Qed.

(** C2 (as amended).  A line that begins with [ClassLoader] closes the
    records of the lines before it and starts a new record; the lines up to
    the next such line, or to the end of the input, add their field to this
    record when their trimmed form has exactly one colon (the key is the
    text before the colon, the value the text after it, both trimmed) and
    are skipped otherwise; the last record is flushed at the end of the
    input. *)
Theorem C2_marker_starts_record_fields_attach :
  forall (output : string) (pre : list string) (marker : string)
         (body post : list string),
    split "010" output = pre ++ marker :: body ++ post ->
    is_loader_marker marker = true ->
    Forall (fun l => is_loader_marker l = false) body ->
    (post = [] \/ exists m ls, post = m :: ls /\ is_loader_marker m = true) ->
    exists before after,
      parse_classloader_lines pre = Ok before /\
      parse_classloader_lines post = Ok after /\
      _parse_classloader_output output
      = Ok (before ++ loader_record marker body :: after).
Proof.
  intros output pre marker body post Hlines Hm Hbody Hpost.
  unfold _parse_classloader_output. rewrite Hlines.
  rewrite !parse_classloader_lines_ok.
  do 2 eexists. split; [reflexivity|]. split; [reflexivity|].
  f_equal.
  rewrite parse_records_header
    by auto using add_loader_field_truthy.
  f_equal. apply parse_records_segment; auto using add_loader_field_truthy.
  destruct Hpost as [->|(m & ls & -> & Hm')]; [reflexivity|].
  now rewrite group_header.
Qed.

Lemma C2_witness :
  exists before after,
    parse_classloader_lines ["orphan: 1"] = Ok before /\
    parse_classloader_lines ["ClassLoader boot"] = Ok after /\
    _parse_classloader_output
      ("orphan: 1" ++ nl ++ "ClassLoader app" ++ nl ++ "  parent: platform"
       ++ nl ++ "  url: jar:file" ++ nl ++ "ClassLoader boot")
    = Ok (before
          ++ loader_record "ClassLoader app"
               ["  parent: platform"; "  url: jar:file"]
          :: after).
Proof.
  apply (C2_marker_starts_record_fields_attach _ ["orphan: 1"] "ClassLoader app"
           ["  parent: platform"; "  url: jar:file"] ["ClassLoader boot"]).
  - reflexivity.
  - reflexivity.
  - repeat constructor.
  - right. exists "ClassLoader boot", []. split; reflexivity.
Defined.

(** C2 as stated fails: the line [url: jar:file] lies under a marker, and
    split on its first colon it is the field [url] with the value
    [jar:file]; the record of the marker does not get this field. *)
Lemma C2_counterexample :
  first_colon_field "  url: jar:file" = Some ("url", "jar:file") /\
  first_colon_record "ClassLoader app" ["  url: jar:file"]
  = VDict [("type", VStr "ClassLoader app"); ("url", VStr "jar:file")] /\
  _parse_classloader_output ("ClassLoader app" ++ nl ++ "  url: jar:file")
  = Ok [VDict [("type", VStr "ClassLoader app")]] /\
  _parse_classloader_output ("ClassLoader app" ++ nl ++ "  url: jar:file")
  <> Ok [first_colon_record "ClassLoader app" ["  url: jar:file"]].
Proof.
  split; [reflexivity|]. split; [reflexivity|]. split; [reflexivity|].
  vm_compute. discriminate.
Qed.

(** C9.  The lines before the first line that begins with [ClassLoader]
    leave no trace in the result, whatever they hold: the result is that of
    the remaining lines, it has one record for each marker line, and each
    record is the one that a marker line started. *)
Theorem C9_lines_before_first_marker_discarded :
  forall (output : string) (pre rest : list string),
    split "010" output = pre ++ rest ->
    Forall (fun l => is_loader_marker l = false) pre ->
    exists records,
      _parse_classloader_output output = Ok records /\
      parse_classloader_lines rest = Ok records /\
      List.length records = List.length (filter is_loader_marker rest) /\
      Forall (fun r => exists marker body,
                  is_loader_marker marker = true /\
                  In marker rest /\
                  r = loader_record marker body) records.
Proof.
  intros output pre rest Hlines Hpre.
  unfold _parse_classloader_output. rewrite Hlines.
  rewrite !parse_classloader_lines_ok.
  rewrite parse_records_lead
    by auto using add_loader_field_truthy.
  eexists. split; [reflexivity|]. split; [reflexivity|]. split.
  - apply parse_records_length; auto using add_loader_field_truthy.
  - apply parse_records_from_header; auto using add_loader_field_truthy.
Qed.

Lemma C9_witness :
  exists records,
    _parse_classloader_output
      ("orphan: 1" ++ nl ++ "other: 2" ++ nl ++ "ClassLoader app" ++ nl
       ++ "parent: platform")
    = Ok records /\
    parse_classloader_lines ["ClassLoader app"; "parent: platform"]
    = Ok records.
Proof.
  destruct (C9_lines_before_first_marker_discarded
              ("orphan: 1" ++ nl ++ "other: 2" ++ nl ++ "ClassLoader app" ++ nl
               ++ "parent: platform")
              ["orphan: 1"; "other: 2"]
              ["ClassLoader app"; "parent: platform"])
    as (records & H1 & H2 & _).
  - reflexivity.
  - repeat constructor.
  - exists records. split; assumption.
Defined.

(** ** Thread records *)

Lemma partition_app sep a b :
  partition sep a = None -> partition sep (a ++ String sep b) = Some (a, b).
Proof.
  induction a as [|c a IH]; simpl.
  - now rewrite Ascii.eqb_refl.
  - destruct (Ascii.eqb c sep); [discriminate|].
    destruct (partition sep a) as [[x y]|]; [discriminate|].
    intros _. now rewrite IH.
Qed.

(** The name of the record that a header line starts: the text after the
    first quote, up to the second one when there is one. *)
Lemma new_thread_name s :
  new_thread (String "034" s)
  = thread_record (match partition "034" s with
                   | Some (name, _) => name
                   | None => s
                   end) VNone [].
Proof.
  unfold new_thread. f_equal.
  rewrite split_partition. cbn [partition]. rewrite Ascii.eqb_refl.
  rewrite split_partition.
  now destruct (partition "034" s) as [[a b]|].
Qed.

Lemma add_thread_line_shape name state stack line :
  exists state' stack',
    add_thread_line (thread_record name state stack) line
    = thread_record name state' stack'.
Proof.
  unfold add_thread_line.
  destruct (contains _ line); [do 2 eexists; reflexivity|].
  destruct (startswith _ _); do 2 eexists; reflexivity.
Qed.

Lemma add_thread_line_truthy d line :
  truthy d = true -> truthy (add_thread_line d line) = true.
Proof.
  unfold add_thread_line. intros Hd.
  destruct (contains _ line); [apply dict_set_truthy|].
  destruct (startswith _ _); [|assumption].
  destruct (dict_get "stack" d) as [[| | |l|]|]; auto using dict_set_truthy.
Qed.

Lemma thread_body_name body :
  forall name state stack,
    exists state' stack',
      fold_left add_thread_line body (thread_record name state stack)
      = thread_record name state' stack'.
Proof.
  induction body as [|l body IH]; intros name state stack; simpl.
  - eauto.
  - destruct (add_thread_line_shape name state stack l) as (s' & st' & ->).
    apply IH.
Qed.

Lemma thread_step_shaped records current line :
  thread_shaped current ->
  thread_shaped
    (snd (record_step is_thread_header new_thread add_thread_line
            (records, current) line)).
Proof.
  intros Hc. unfold record_step.
  destruct (is_thread_header line).
  - right. unfold new_thread. cbn [snd]. eauto.
  - destruct Hc as [->|(n & s & st & ->)]; simpl.
    + now left.
    + right. destruct (add_thread_line_shape n s st line) as (s' & st' & ->).
      eauto.
Qed.

Lemma thread_line_ok records current line :
  thread_shaped current ->
  thread_line (records, current) line
  = Ok (record_step is_thread_header new_thread add_thread_line
          (records, current) line).
Proof.
  intros Hc. unfold thread_line, record_step.
  fold (is_thread_header line).
  destruct (is_thread_header line) eqn:Hh.
  - rewrite index_split_1; [reflexivity|].
    apply startswith_char in Hh as (s & ->). simpl. congruence.
  - destruct Hc as [->|(n & s & st & ->)].
    + rewrite !andb_false_r. reflexivity.
    + cbn [truthy thread_record]. rewrite !andb_true_r.
      unfold add_thread_line.
      destruct (contains "java.lang.Thread.State:" line) eqn:Hs.
      * rewrite index_split_1; [reflexivity|].
        apply (contains_partition ":" "java.lang.Thread.State:");
          [vm_compute; congruence|assumption].
      * destruct (startswith (strip line) "at "); reflexivity.
Qed.

Lemma parse_thread_lines_ok lines :
  parse_thread_lines lines
  = Ok (parse_records is_thread_header new_thread add_thread_line lines).
Proof.
  unfold parse_thread_lines, parse_records.
  rewrite (for_each_ok thread_line
             (record_step is_thread_header new_thread add_thread_line)
             (fun st => thread_shaped (snd st))).
  - reflexivity.
  - intros [records current] line Hs. now apply thread_line_ok.
  - intros [records current] line Hs. now apply thread_step_shaped.
  - now left.
Qed.

Lemma new_thread_truthy line : truthy (new_thread line) = true.
Proof. reflexivity. Qed.

Lemma quote_is_header s : is_thread_header (String "034" s) = true.
Proof.
  unfold is_thread_header, startswith. cbn [prefix].
  destruct (ascii_dec "034" "034"); [now destruct s|congruence].
Qed.

(** A header line closes what comes before it and starts the record with
    its name. *)
Lemma thread_header_record pre s post :
  exists state stack after,
    parse_records is_thread_header new_thread add_thread_line
      (pre ++ String "034" s :: post)
    = parse_records is_thread_header new_thread add_thread_line pre
      ++ VDict (thread_record
                  (match partition "034" s with
                   | Some (name, _) => name
                   | None => s
                   end) state stack)
      :: after.
Proof.
  rewrite parse_records_header
    by auto using add_thread_line_truthy, quote_is_header.
  rewrite (parse_records_group _ _ _ new_thread_truthy add_thread_line_truthy
             (_ :: post)).
  rewrite group_header by apply quote_is_header.
  cbn [snd map]. unfold record_of at 1. cbn [fst snd].
  rewrite new_thread_name.
  destruct (thread_body_name
              (fst (group is_thread_header post))
              (match partition "034" s with
               | Some (name, _) => name
               | None => s
               end) VNone []) as (state & stack & ->).
  eauto.
Qed.

Lemma at_line_not_header line :
  startswith (strip line) "at " = true -> is_thread_header line = false.
Proof.
  intros Hat. destruct (is_thread_header line) eqn:Hh; [|reflexivity].
  apply startswith_char in Hh as (s & ->).
  rewrite strip_nonspace in Hat by reflexivity.
  apply prefix_cons_inv in Hat as [Hc _]. discriminate Hc.
Qed.

(** A stack frame goes to the end of the stack of the thread in progress. *)
Lemma thread_step_frame records name state stack line :
  startswith (strip line) "at " = true ->
  contains "java.lang.Thread.State:" line = false ->
  record_step is_thread_header new_thread add_thread_line
    (records, thread_record name state stack) line
  = (records, thread_record name state (stack ++ [VStr (strip line)])).
Proof.
  intros Hat Hs. unfold record_step, add_thread_line.
  rewrite (at_line_not_header line Hat), Hs, Hat. reflexivity.
Qed.

(** C4 (as amended).  For a thread dump of five lines, a header of the
    thread [main], the line of its state [RUNNABLE], two lines whose trimmed
    form starts with [at ] and that do not hold [java.lang.Thread.State:],
    and the header of the thread [main2], the first record has the name
    [main], the state [RUNNABLE] and the two lines, trimmed, as its stack,
    in the order of the input.  And in every thread dump a line that starts
    with a quote closes the records of the lines before it and starts a
    record whose name is the text between its first two quotes. *)
Theorem C4_thread_dump_records :
  (forall (output rest1 frame1 frame2 rest2 : string),
      split "010" output
      = [(quote ++ "main" ++ quote ++ rest1)%string;
         "   java.lang.Thread.State: RUNNABLE";
         frame1; frame2;
         (quote ++ "main2" ++ quote ++ rest2)%string] ->
      startswith (strip frame1) "at " = true ->
      contains "java.lang.Thread.State:" frame1 = false ->
      startswith (strip frame2) "at " = true ->
      contains "java.lang.Thread.State:" frame2 = false ->
      exists second,
        _parse_thread_dump output
        = Ok [VDict (thread_record "main" (VStr "RUNNABLE")
                       [VStr (strip frame1); VStr (strip frame2)]);
              second]) /\
  (forall (output : string) (pre : list string) (name rest : string)
          (post : list string),
      split "010" output
      = pre ++ (quote ++ name ++ quote ++ rest)%string :: post ->
      contains quote name = false ->
      exists before state stack after,
        parse_thread_lines pre = Ok before /\
        _parse_thread_dump output
        = Ok (before ++ VDict (thread_record name state stack) :: after)).
Proof.
  split.
  - intros output rest1 frame1 frame2 rest2 Hlines Hat1 Hs1 Hat2 Hs2.
    unfold _parse_thread_dump. rewrite Hlines, parse_thread_lines_ok.
    unfold parse_records. cbn [fold_left].
    set (step := record_step is_thread_header new_thread add_thread_line).
    assert (H1 : step ([], []) (quote ++ "main" ++ quote ++ rest1)%string
                 = ([], thread_record "main" VNone [])).
    { unfold step, record_step.
      change (quote ++ "main" ++ quote ++ rest1)%string
        with (String "034" ("main" ++ String "034" rest1)).
      rewrite quote_is_header, new_thread_name.
      rewrite (partition_app "034" "main" rest1) by reflexivity. reflexivity. }
    rewrite H1.
    assert (H2 : step ([], thread_record "main" VNone [])
                   "   java.lang.Thread.State: RUNNABLE"
                 = ([], thread_record "main" (VStr "RUNNABLE") []))
      by reflexivity.
    rewrite H2. unfold step.
    rewrite (thread_step_frame _ _ _ _ frame1 Hat1 Hs1).
    rewrite (thread_step_frame _ _ _ _ frame2 Hat2 Hs2).
    unfold record_step, quote. cbn [append].
    rewrite quote_is_header. cbn [truthy thread_record flush app].
    eexists. reflexivity.
  - intros output pre name rest post Hlines Hname.
    unfold _parse_thread_dump. rewrite Hlines, !parse_thread_lines_ok.
    unfold quote. cbn [append].
    destruct (thread_header_record pre (name ++ String "034" rest) post)
      as (state & stack & after & ->).
    apply contains_char_partition in Hname.
    rewrite (partition_app _ _ _ Hname).
    exists (parse_records is_thread_header new_thread add_thread_line pre),
      state, stack, after.
    split; reflexivity.
Qed.

Lemma C4_witness :
  (exists second,
      _parse_thread_dump sample_dump
      = Ok [VDict (thread_record "main" (VStr "RUNNABLE")
                     [VStr "at a.b.c(X.java:1)"; VStr "at d.e.f(Y.java:2)"]);
            second]) /\
  (exists before state stack after,
      parse_thread_lines ["Full thread dump"; ""] = Ok before /\
      _parse_thread_dump
        ("Full thread dump" ++ nl ++ nl ++ quote ++ "GC Thread#0" ++ quote ++ " os_prio=0")
      = Ok (before ++ VDict (thread_record "GC Thread#0" state stack) :: after)).
Proof.
  destruct C4_thread_dump_records as [Hexample Hrule]. split.
  - apply (Hexample sample_dump
             " #1 prio=5 os_prio=0 tid=0x01 nid=0x02 runnable"
             (tab ++ "at a.b.c(X.java:1)")%string
             (tab ++ "at d.e.f(Y.java:2)")%string
             " #2 daemon prio=5"); reflexivity.
  - apply (Hrule ("Full thread dump" ++ nl ++ nl ++ quote ++ "GC Thread#0" ++ quote ++ " os_prio=0")%string
             ["Full thread dump"; ""] "GC Thread#0" " os_prio=0" []);
      reflexivity.
Defined.

(** C4 as stated fails: a line whose trimmed form starts with [at ] and
    that holds [java.lang.Thread.State:] is read as a state line, the test
    of the state coming first.  With such a line as the second frame the
    first record has one stack element, not two, and the state of this
    line, not [RUNNABLE]. *)
Lemma C4_counterexample :
  split "010" marker_frame_dump
  = [(quote ++ "main" ++ quote ++ " #1 prio=5")%string;
     "   java.lang.Thread.State: RUNNABLE";
     (tab ++ "at a.b.c(X.java:1)")%string;
     (tab ++ "at x.java.lang.Thread.State: BLOCKED")%string;
     (quote ++ "main2" ++ quote ++ " #2 daemon prio=5")%string] /\
  startswith (strip (tab ++ "at a.b.c(X.java:1)")) "at " = true /\
  startswith (strip (tab ++ "at x.java.lang.Thread.State: BLOCKED")) "at "
  = true /\
  _parse_thread_dump marker_frame_dump
  = Ok [VDict (thread_record "main" (VStr "BLOCKED")
                 [VStr "at a.b.c(X.java:1)"]);
        VDict (thread_record "main2" VNone [])] /\
  ~ (exists state stack second,
        _parse_thread_dump marker_frame_dump
        = Ok [VDict (thread_record "main" state stack); second] /\
        state = VStr "RUNNABLE" /\ List.length stack = 2).
Proof.
  split; [reflexivity|]. split; [reflexivity|]. split; [reflexivity|].
  split; [reflexivity|].
  intros (state & stack & second & Hp & Hs & _).
  assert (H : _parse_thread_dump marker_frame_dump
              = Ok [VDict (thread_record "main" (VStr "BLOCKED")
                             [VStr "at a.b.c(X.java:1)"]);
                    VDict (thread_record "main2" VNone [])])
    by reflexivity.
  rewrite H in Hp. subst state. unfold thread_record in Hp. discriminate Hp.
Qed.

(** C10.  [_parse_thread_dump] returns a list for every input.  The lines
    before the first line that starts with a quote are ignored, state lines
    and stack frames among them.  A header line with no second quote starts
    a record all the same, named by the text after its quote. *)
Theorem C10_thread_dump_total :
  forall (output : string),
    (exists threads, _parse_thread_dump output = Ok threads) /\
    (forall (pre rest : list string),
        split "010" output = pre ++ rest ->
        Forall (fun l => is_thread_header l = false) pre ->
        _parse_thread_dump output = parse_thread_lines rest) /\
    (forall (pre : list string) (text : string) (post : list string),
        split "010" output = pre ++ (quote ++ text)%string :: post ->
        contains quote text = false ->
        exists before state stack after,
          parse_thread_lines pre = Ok before /\
          _parse_thread_dump output
          = Ok (before ++ VDict (thread_record text state stack) :: after)).
Proof.
  intros output. unfold _parse_thread_dump. split; [|split].
  - rewrite parse_thread_lines_ok. eauto.
  - intros pre rest -> Hpre. rewrite !parse_thread_lines_ok. f_equal.
    apply parse_records_lead; auto using add_thread_line_truthy.
  - intros pre text post -> Htext. rewrite !parse_thread_lines_ok.
    unfold quote. cbn [append].
    destruct (thread_header_record pre text post)
      as (state & stack & after & ->).
    apply contains_char_partition in Htext. rewrite Htext.
    exists (parse_records is_thread_header new_thread add_thread_line pre),
      state, stack, after.
    split; reflexivity.
Qed.

Lemma C10_witness :
  _parse_thread_dump
    ("   java.lang.Thread.State: BLOCKED" ++ nl ++ tab ++ "at a.b.c(X.java:1)"
     ++ nl ++ quote ++ "worker")
  = parse_thread_lines [(quote ++ "worker")%string] /\
  (exists before state stack after,
      parse_thread_lines [] = Ok before /\
      _parse_thread_dump (quote ++ "worker")
      = Ok (before ++ VDict (thread_record "worker" state stack) :: after)).
Proof.
  split.
  - apply (C10_thread_dump_total _)
      with (pre := ["   java.lang.Thread.State: BLOCKED";
                    (tab ++ "at a.b.c(X.java:1)")%string]).
    + reflexivity.
    + repeat constructor.
  - apply (C10_thread_dump_total (quote ++ "worker")%string) with (pre := []) (post := []);
      reflexivity.
Defined.

(** ** System properties *)

Lemma property_line_ok properties line :
  property_line properties line = Ok (property_update properties line).
Proof.
  unfold property_line, property_update, property_of, split1.
  destruct (contains "=" line) eqn:Hc.
  - destruct (partition "=" line) as [[k v]|] eqn:Hp; [reflexivity|].
    apply contains_char_partition in Hp. congruence.
  - apply contains_char_partition in Hc. now rewrite Hc.
Qed.

Lemma analyze_system_properties_success run pid r :
  run (properties_argv pid) = Ok r -> returncode r = 0%Z ->
  analyze_system_properties run pid
  = Ok (fold_left property_update (split "010" (stdout r)) []).
Proof.
  intros Hrun Hrc. unfold analyze_system_properties.
  fold (properties_argv pid). rewrite Hrun, Hrc. cbn [Z.eqb].
  now rewrite (for_partial_ok property_line property_update property_line_ok).
Qed.

Lemma property_update_get key properties line :
  dict_get key (property_update properties line)
  = match property_of line with
    | Some (k, v) =>
        if String.eqb k key then Some (VStr v) else dict_get key properties
    | None => dict_get key properties
    end.
Proof.
  unfold property_update. destruct (property_of line) as [[k v]|]; auto.
  destruct (String.eqb k key) eqn:E.
  - apply String.eqb_eq in E. subst. apply dict_get_set_same.
  - apply dict_get_set_other. intros ->. now rewrite String.eqb_refl in E.
Qed.

Lemma fold_property_update_get key lines :
  forall properties,
    dict_get key (fold_left property_update lines properties)
    = match last_property key lines with
      | Some v => Some v
      | None => dict_get key properties
      end.
Proof.
  induction lines as [|l lines IH]; intros properties; simpl.
  - reflexivity.
  - rewrite IH, property_update_get.
    destruct (last_property key lines); [reflexivity|].
    destruct (property_of l) as [[k v]|]; [|reflexivity].
    now destruct (String.eqb k key).
Qed.

Lemma fold_property_update_nodup lines :
  forall properties,
    NoDup (keys properties) ->
    NoDup (keys (fold_left property_update lines properties)).
Proof.
  induction lines as [|l lines IH]; intros properties Hnd; simpl; auto.
  apply IH. unfold property_update.
  destruct (property_of l) as [[k v]|]; auto using keys_dict_set_nodup.
Qed.

Lemma last_property_none key lines :
  Forall (fun l => forall v, property_of l <> Some (key, v)) lines ->
  last_property key lines = None.
Proof.
  induction 1 as [|l lines Hl _ IH]; simpl; [reflexivity|].
  rewrite IH. destruct (property_of l) as [[k v]|]; [|reflexivity].
  destruct (String.eqb k key) eqn:E; [|reflexivity].
  apply String.eqb_eq in E. subst. now destruct (Hl v).
Qed.

Lemma last_property_at key value pre line post :
  property_of line = Some (key, value) ->
  Forall (fun l => forall v, property_of l <> Some (key, v)) post ->
  last_property key (pre ++ line :: post) = Some (VStr value).
Proof.
  intros Hline Hpost. induction pre as [|p pre IH]; simpl.
  - rewrite (last_property_none key post Hpost), Hline.
    now rewrite String.eqb_refl.
  - now rewrite IH.
Qed.

(** ** What trimming removes *)

Lemma lstrip_start s :
  lstrip s = "" \/ exists c t, lstrip s = String c t /\ isspace c = false.
Proof.
  induction s as [|c s IH]; [now left|].
  cbn [lstrip]. destruct (isspace c) eqn:Hc; [assumption|].
  right. eauto.
Qed.

Lemma lstrip_split s :
  exists l, s = (l ++ lstrip s)%string /\ all_chars isspace l = true.
Proof.
  induction s as [|c s (l & Hs & Hl)].
  - exists "". split; reflexivity.
  - cbn [lstrip]. destruct (isspace c) eqn:Hc.
    + exists (String c l). split; [simpl; now rewrite <- Hs|].
      simpl. now rewrite Hc.
    + exists "". split; reflexivity.
Qed.

Lemma rstrip_split s :
  exists r, s = (rstrip s ++ r)%string /\ all_chars isspace r = true.
Proof.
  induction s as [|c s (r & Hs & Hr)].
  - exists "". split; reflexivity.
  - cbn [rstrip].
    destruct (isspace c && negb (nonempty (rstrip s))) eqn:Hb.
    + apply andb_true_iff in Hb as [Hc He].
      destruct (rstrip s); [|discriminate]. simpl in Hs. subst s.
      exists (String c r). split; [reflexivity|]. simpl. now rewrite Hc.
    + exists r. split; [simpl; now rewrite <- Hs|assumption].
Qed.

Lemma rstrip_end s :
  forall t c, rstrip s = (t ++ String c "")%string -> isspace c = false.
Proof.
  induction s as [|x s IH]; intros t c; cbn [rstrip].
  - destruct t; discriminate.
  - destruct (isspace x && negb (nonempty (rstrip s))) eqn:Hb.
    + destruct t; discriminate.
    + destruct t as [|y t]; simpl; intros [= -> Hr].
      * rewrite Hr in Hb. simpl in Hb. now rewrite andb_true_r in Hb.
      * now apply (IH t c).
Qed.

(** [strip] takes the whitespace of the two ends away, and nothing else. *)
Lemma strip_is_trim s : is_trim_of s (strip s).
Proof.
  unfold is_trim_of, strip. split; [|split].
  - destruct (lstrip_split s) as (l & Hs & Hl).
    destruct (rstrip_split (lstrip s)) as (r & Hu & Hr).
    exists l, r. split; [|split; assumption].
    now rewrite <- Hu.
  - intros c t Ht.
    destruct (lstrip_start s) as [He|(c0 & t0 & He & Hc)]; rewrite He in Ht.
    + discriminate.
    + rewrite rstrip_nonspace in Ht by assumption. now injection Ht as <- _.
  - apply rstrip_end.
Qed.

Lemma lstrip_app_space l x :
  all_chars isspace l = true -> lstrip (l ++ x) = lstrip x.
Proof.
  induction l as [|c l IH]; [reflexivity|].
  simpl. intros H. apply andb_true_iff in H as [Hc Hl].
  rewrite Hc. now apply IH.
Qed.

Lemma lstrip_space r : all_chars isspace r = true -> lstrip r = "".
Proof.
  induction r as [|c r IH]; [reflexivity|].
  simpl. intros H. apply andb_true_iff in H as [Hc Hr].
  rewrite Hc. now apply IH.
Qed.

Lemma rstrip_app_space t r :
  all_chars isspace r = true -> rstrip (t ++ r) = rstrip t.
Proof.
  intros Hr. induction t as [|c t IH].
  - simpl. induction r as [|x r IHr]; [reflexivity|].
    simpl in Hr. apply andb_true_iff in Hr as [Hx Hr].
    cbn [rstrip]. now rewrite (IHr Hr), Hx.
  - simpl. now rewrite IH.
Qed.

Lemma rstrip_fixed t :
  (forall t' c, t = (t' ++ String c "")%string -> isspace c = false) ->
  rstrip t = t.
Proof.
  induction t as [|c t IH]; intros Hend; [reflexivity|].
  cbn [rstrip]. rewrite IH.
  - destruct t as [|y t].
    + rewrite (Hend "" c eq_refl). reflexivity.
    + now rewrite andb_false_r.
  - intros t' x ->. now apply (Hend (String c t') x).
Qed.

(** The trimmed form of a text is one text only. *)
Lemma is_trim_of_strip s t : is_trim_of s t -> t = strip s.
Proof.
  intros ((l & r & -> & Hl & Hr) & Hstart & Hend).
  unfold strip. rewrite lstrip_app_space by assumption.
  destruct t as [|c t].
  - simpl. now rewrite lstrip_space.
  - change (String c t ++ r)%string with (String c (t ++ r)).
    rewrite lstrip_nonspace by now apply (Hstart c t).
    change (String c (t ++ r)) with (String c t ++ r)%string.
    rewrite rstrip_app_space by assumption.
    symmetry. now apply rstrip_fixed.
Qed.

(** C5.  After a successful listing of the properties, every line that
    holds an [=] gives the entry of its key, the text before the first [=],
    and its value, the text after it, both without the whitespace of their
    two ends; of the lines of one key the last one decides; no key is there
    twice.  The lines [a.b=1] and [c=x=y] give the mapping of [a.b] to [1]
    and of [c] to [x=y]. *)
Theorem C5_properties_split_on_first_equals :
  forall (subprocess_run : list string -> result CompletedProcess)
         (pid : string) (r : CompletedProcess),
    subprocess_run (properties_argv pid) = Ok r ->
    returncode r = 0%Z ->
    exists properties,
      analyze_system_properties subprocess_run pid = Ok properties /\
      NoDup (keys properties) /\
      (forall key,
          dict_get key properties
          = last_property key (split "010" (stdout r))) /\
      (forall pre line post k v,
          split "010" (stdout r) = pre ++ line :: post ->
          contains "=" line = true ->
          partition "=" line = Some (k, v) ->
          Forall (fun l => forall v', property_of l <> Some (strip k, v')) post ->
          dict_get (strip k) properties = Some (VStr (strip v))) /\
      (forall pre line post k v key value,
          split "010" (stdout r) = pre ++ line :: post ->
          contains "=" line = true ->
          partition "=" line = Some (k, v) ->
          is_trim_of k key ->
          is_trim_of v value ->
          Forall (fun l => forall k' v',
                      partition "=" l = Some (k', v') -> ~ is_trim_of k' key)
            post ->
          dict_get key properties = Some (VStr value)) /\
      analyze_system_properties (prints ("a.b=1" ++ nl ++ "c=x=y")) pid
      = Ok [("a.b", VStr "1"); ("c", VStr "x=y")] /\
      analyze_system_properties (prints padded_properties) pid
      = Ok [("java.home", VStr "/opt/jdk 17");
            ("user.dir", VStr "/srv/app = 1")].
Proof.
  intros run pid r Hrun Hrc.
  rewrite (analyze_system_properties_success run pid r Hrun Hrc).
  eexists. split; [reflexivity|]. split; [|split; [|split; [|split; [|split]]]].
  - apply fold_property_update_nodup. constructor.
  - intros key. rewrite fold_property_update_get.
    now destruct (last_property key _).
  - intros pre line post k v Hlines _ Hp Hpost.
    rewrite fold_property_update_get, Hlines.
    rewrite (last_property_at (strip k) (strip v)); auto.
    unfold property_of. now rewrite Hp.
  - intros pre line post k v key value Hlines _ Hp Hk Hv Hpost.
    apply is_trim_of_strip in Hk as ->. apply is_trim_of_strip in Hv as ->.
    rewrite fold_property_update_get, Hlines.
    rewrite (last_property_at (strip k) (strip v)); auto.
    + unfold property_of. now rewrite Hp.
    + eapply Forall_impl; [|exact Hpost].
      intros l Hl v'. unfold property_of.
      destruct (partition "=" l) as [[k' w']|] eqn:Hpl; [|discriminate].
      intros [= Hkey _]. apply (Hl k' w' Hpl).
      rewrite <- Hkey. apply strip_is_trim.
  - reflexivity.
  - reflexivity.
Qed.

Lemma C5_witness :
  exists properties,
    analyze_system_properties (prints padded_properties) "4242"
    = Ok properties /\
    dict_get "java.home" properties = Some (VStr "/opt/jdk 17").
Proof.
  destruct (C5_properties_split_on_first_equals (prints padded_properties)
              "4242" {| returncode := 0; stdout := padded_properties |})
    as (properties & Hp & _ & _ & _ & Hline & _).
  - reflexivity.
  - reflexivity.
  - exists properties. split; [exact Hp|].
    apply (Hline [] "  java.home =  /opt/jdk 17 "
             [(tab ++ "user.dir" ++ tab ++ "=" ++ tab ++ "/srv/app = 1"
               ++ String "013" "")%string; ""]
             "  java.home " "  /opt/jdk 17 ").
    + reflexivity.
    + reflexivity.
    + reflexivity.
    + apply (strip_is_trim "  java.home ").
    + apply (strip_is_trim "  /opt/jdk 17 ").
    + repeat constructor.
      * intros k' v' [= <- _] Ht. apply is_trim_of_strip in Ht. discriminate Ht.
      * intros k' v'. discriminate.
Defined.

(** ** Scriptlets *)

Lemma prefix_empty s : prefix "" s = true.
Proof. now destruct s. Qed.

Lemma prefix_two a b s :
  prefix (String a (String b "")) s = true
  <-> exists r, s = String a (String b r).
Proof.
  split.
  - destruct s as [|a' [|b' r]]; cbn [prefix]; try discriminate.
    + destruct (ascii_dec a a'); discriminate.
    + destruct (ascii_dec a a') as [<-|]; [|discriminate].
      destruct (ascii_dec b b') as [<-|]; [|discriminate]. eauto.
  - intros [r ->]. cbn [prefix].
    destruct (ascii_dec a a); [|congruence].
    destruct (ascii_dec b b); [|congruence]. apply prefix_empty.
Qed.

Lemma contains_cons sub c s :
  contains sub (String c s) = false ->
  prefix sub (String c s) = false /\ contains sub s = false.
Proof. cbn [contains]. apply orb_false_iff. Qed.

Lemma until_close_shorter :
  forall s body rest,
    until_close s = Some (body, rest) -> String.length rest < String.length s.
Proof.
  induction s as [|c s IH]; intros body rest; cbn [until_close].
  - discriminate.
  - destruct (prefix "%>" (String c s)) eqn:Hp.
    + apply prefix_two in Hp as [r Hr]. rewrite Hr.
      intros [= _ <-]. simpl. lia.
    + destruct (until_close s) as [[b r]|] eqn:Hu; [|discriminate].
      intros [= _ <-]. specialize (IH _ _ eq_refl). simpl. lia.
Qed.

Lemma match_at_shorter s m rest :
  match_at s = Some (m, rest) -> String.length rest < String.length s.
Proof.
  unfold match_at. destruct (prefix "<%" s) eqn:Hp; [|discriminate].
  apply prefix_two in Hp as [r ->]. cbn [drop].
  destruct (until_close r) as [[b rest']|] eqn:Hu; [|discriminate].
  intros [= _ <-]. apply until_close_shorter in Hu. simpl. lia.
Qed.

(** More steps than the text has characters change nothing. *)
Lemma findall_fuel_enough :
  forall fuel fuel' s,
    String.length s < fuel -> String.length s < fuel' ->
    findall_fuel fuel s = findall_fuel fuel' s.
Proof.
  induction fuel as [|fuel IH]; intros fuel' s Hf Hf'; [lia|].
  destruct fuel' as [|fuel']; [lia|]. cbn [findall_fuel].
  destruct (match_at s) as [[m rest]|] eqn:Hm.
  - apply match_at_shorter in Hm. f_equal. apply IH; lia.
  - destruct s as [|c s]; [reflexivity|]. simpl in Hf, Hf'. apply IH; lia.
Qed.

Lemma findall_fuel_S fuel s :
  findall_fuel (S fuel) s
  = match match_at s with
    | Some (m, rest) => m :: findall_fuel fuel rest
    | None =>
        match s with
        | EmptyString => []
        | String _ s' => findall_fuel fuel s'
        end
    end.
Proof. reflexivity. Qed.

(** The scan, step by step. *)
Lemma re_findall_step s :
  re_findall_scriptlets s
  = match match_at s with
    | Some (m, rest) => m :: re_findall_scriptlets rest
    | None =>
        match s with
        | EmptyString => []
        | String _ s' => re_findall_scriptlets s'
        end
    end.
Proof.
  unfold re_findall_scriptlets. rewrite (findall_fuel_S (String.length s) s).
  destruct (match_at s) as [[m rest]|] eqn:Hm.
  - apply match_at_shorter in Hm. f_equal. apply findall_fuel_enough; lia.
  - destruct s as [|c s]; [reflexivity|].
    apply findall_fuel_enough; simpl; lia.
Qed.

Lemma until_close_none s : contains "%>" s = false -> until_close s = None.
Proof.
  induction s as [|c s IH]; [reflexivity|].
  intros H. apply contains_cons in H as [Hp Hc].
  cbn [until_close]. rewrite Hp, IH by assumption. reflexivity.
Qed.

Lemma until_close_first body rest :
  contains "%>" body = false ->
  until_close (body ++ "%>" ++ rest) = Some (body, rest).
Proof.
  induction body as [|c body IH]; intros H.
  - change ("" ++ "%>" ++ rest)%string with (String "%" (String ">" rest)).
    cbn [until_close].
    replace (prefix "%>" (String "%" (String ">" rest))) with true
      by (symmetry; apply prefix_two; eauto).
    reflexivity.
  - apply contains_cons in H as [Hp Hc].
    change (String c body ++ "%>" ++ rest)%string
      with (String c (body ++ "%>" ++ rest)).
    cbn [until_close]. rewrite IH by assumption.
    destruct (prefix "%>" (String c (body ++ "%>" ++ rest))) eqn:Hp';
      [|reflexivity].
    apply prefix_two in Hp' as [r Hr]. injection Hr as -> Hr.
    destruct body as [|c' body].
    + simpl in Hr. discriminate.
    + simpl in Hr. injection Hr as -> _.
      assert (prefix "%>" (String "%" (String ">" body)) = true)
        by (apply prefix_two; eauto).
      congruence.
Qed.

Lemma no_open_no_match s : contains "<%" s = false -> match_at s = None.
Proof.
  intros H. unfold match_at. destruct s as [|c s]; [reflexivity|].
  apply contains_cons in H as [-> _]. reflexivity.
Qed.

(** A text with no [<%] has no match, also when a [<%] follows it. *)
Lemma gap_no_match c gap rest :
  contains "<%" (String c gap) = false ->
  match_at (String c gap ++ "<%" ++ rest) = None.
Proof.
  intros H. apply contains_cons in H as [Hp _]. unfold match_at.
  destruct (prefix "<%" (String c gap ++ "<%" ++ rest)) eqn:Hp';
    [|reflexivity].
  apply prefix_two in Hp' as [r Hr]. simpl in Hr. injection Hr as -> Hr.
  destruct gap as [|c' gap].
  - simpl in Hr. discriminate.
  - simpl in Hr. injection Hr as -> _.
    assert (prefix "<%" (String "<" (String "%" gap)) = true)
      by (apply prefix_two; eauto).
    congruence.
Qed.

Lemma re_findall_no_open s :
  contains "<%" s = false -> re_findall_scriptlets s = [].
Proof.
  induction s as [|c s IH]; intros H.
  - reflexivity.
  - rewrite re_findall_step, no_open_no_match by assumption.
    apply IH. now apply contains_cons in H.
Qed.

Lemma re_findall_no_close s :
  contains "%>" s = false -> re_findall_scriptlets s = [].
Proof.
  induction s as [|c s IH]; intros H.
  - reflexivity.
  - rewrite re_findall_step.
    apply contains_cons in H as [Hp Hc].
    assert (Hm : match_at (String c s) = None).
    { unfold match_at. destruct (prefix "<%" (String c s)) eqn:Ho; auto.
      apply prefix_two in Ho as [r Hr]. injection Hr as -> ->.
      cbn [drop]. rewrite until_close_none; [reflexivity|].
      now apply contains_cons in Hc. }
    rewrite Hm. now apply IH.
Qed.

Lemma re_findall_gap gap rest :
  contains "<%" gap = false ->
  re_findall_scriptlets (gap ++ "<%" ++ rest)
  = re_findall_scriptlets ("<%" ++ rest).
Proof.
  induction gap as [|c gap IH]; intros H.
  - reflexivity.
  - rewrite re_findall_step, gap_no_match by assumption.
    apply IH. now apply contains_cons in H.
Qed.

Lemma re_findall_unterminated gap tail :
  contains "<%" gap = false -> contains "%>" tail = false ->
  re_findall_scriptlets (gap ++ "<%" ++ tail) = [].
Proof.
  intros Hg Ht. rewrite re_findall_gap by assumption.
  rewrite re_findall_step. unfold match_at.
  change (prefix "<%" ("<%" ++ tail)) with (prefix "" tail).
  rewrite prefix_empty. cbn [append drop].
  rewrite until_close_none by assumption.
  rewrite re_findall_step.
  assert (Hm : match_at (String "%" tail) = None) by reflexivity.
  rewrite Hm. now apply re_findall_no_close.
Qed.

Lemma re_findall_first gap body rest :
  contains "<%" gap = false -> contains "%>" body = false ->
  re_findall_scriptlets (gap ++ "<%" ++ body ++ "%>" ++ rest)
  = ("<%" ++ body ++ "%>")%string :: re_findall_scriptlets rest.
Proof.
  intros Hg Hb. rewrite re_findall_gap by assumption.
  rewrite re_findall_step. unfold match_at.
  change (prefix "<%" ("<%" ++ body ++ "%>" ++ rest)) with
    (prefix "" (body ++ "%>" ++ rest)).
  rewrite prefix_empty. cbn [append drop].
  change (until_close (body ++ String "%" (String ">" rest)))
    with (until_close (body ++ "%>" ++ rest)).
  now rewrite until_close_first.
Qed.

(** C6.  The count of scriptlets of a JSP file is the number of matches that
    the scan finds in its content: the first [<%] that a [%>] follows opens
    a match, the match ends with the first such [%>], whatever lies in
    between, newlines too, and the scan goes on after it.  So
    [<% int x=1; %>text<% y++; %>] counts 2, a content with no [<%] or with
    no [%>] counts 0, and a [<%] that no [%>] follows counts for nothing. *)
Theorem C6_scriptlet_count :
  (forall (read_text : string -> result string)
          (getsize : string -> result Z)
          (getmtime_isoformat : string -> result string)
          (file_path content : string) (size : Z) (mtime : string),
      read_text file_path = Ok content ->
      getsize file_path = Ok size ->
      getmtime_isoformat file_path = Ok mtime ->
      exists record,
        _analyze_single_jsp read_text getsize getmtime_isoformat file_path
        = Some record /\
        dict_get "scriptlets" record = Some (VInt (count_scriptlets content))) /\
  count_scriptlets "<% int x=1; %>text<% y++; %>" = 2%Z /\
  count_scriptlets ("<%" ++ nl ++ "int x = 1;" ++ nl ++ "%>") = 1%Z /\
  (forall content,
      contains "<%" content = false \/ contains "%>" content = false ->
      count_scriptlets content = 0%Z) /\
  (forall gap tail,
      contains "<%" gap = false -> contains "%>" tail = false ->
      count_scriptlets (gap ++ "<%" ++ tail) = 0%Z) /\
  (forall gap body rest,
      contains "<%" gap = false -> contains "%>" body = false ->
      re_findall_scriptlets (gap ++ "<%" ++ body ++ "%>" ++ rest)
      = ("<%" ++ body ++ "%>")%string :: re_findall_scriptlets rest /\
      count_scriptlets (gap ++ "<%" ++ body ++ "%>" ++ rest)
      = (1 + count_scriptlets rest)%Z).
Proof.
  split; [|split; [|split; [|split; [|split]]]].
  - intros read_text getsize getmtime path content size mtime Hr Hs Hm.
    unfold _analyze_single_jsp. rewrite Hr, Hs, Hm. cbn [bind].
    eexists. split; reflexivity.
  - reflexivity.
  - reflexivity.
  - intros content [H|H]; unfold count_scriptlets.
    + now rewrite re_findall_no_open.
    + now rewrite re_findall_no_close.
  - intros gap tail Hg Ht. unfold count_scriptlets.
    now rewrite re_findall_unterminated.
  - intros gap body rest Hg Hb. unfold count_scriptlets.
    rewrite re_findall_first by assumption. split; [reflexivity|].
    cbn [List.length]. lia.
Qed.

Lemma C6_witness :
  count_scriptlets "<h1>title</h1>" = 0%Z /\
  count_scriptlets ("<p>" ++ "<%" ++ " never closed") = 0%Z /\
  count_scriptlets ("<p>" ++ "<%" ++ " a > b " ++ "%>" ++ "</p><% c %>")
  = (1 + count_scriptlets "</p><% c %>")%Z.
Proof.
  destruct C6_scriptlet_count as (_ & _ & _ & Hnone & Hopen & Hfirst).
  split; [|split].
  - apply Hnone. left. reflexivity.
  - apply Hopen; reflexivity.
  - apply (Hfirst "<p>" " a > b " "</p><% c %>"); reflexivity.
Defined.

(** ** The lines of the process listing *)

Lemma split_ws_cons_token s :
  split_ws s
  = cons_token (fst (split_by isspace s))
      (filter nonempty (snd (split_by isspace s))).
Proof.
  unfold split_ws, cons_token. destruct (split_by isspace s) as [tok pieces].
  reflexivity.
Qed.

Lemma scan_split s :
  scan s
  = (fst (split_by isspace (fst (split_by (Ascii.eqb "010") s))),
     filter nonempty (snd (split_by isspace (fst (split_by (Ascii.eqb "010") s)))),
     map split_ws (snd (split_by (Ascii.eqb "010") s))).
Proof.
  induction s as [|c s IH]; [reflexivity|].
  cbn [scan split_by]. rewrite IH.
  destruct (split_by (Ascii.eqb "010") s) as [h t].
  destruct (Ascii.eqb "010" c) eqn:Hnl.
  - cbn [fst snd split_by map filter]. now rewrite split_ws_cons_token.
  - cbn [fst snd split_by].
    destruct (split_by isspace h) as [tok pieces].
    destruct (isspace c); reflexivity.
Qed.

Lemma token_lines_split s :
  token_lines s = filter nonnil (map split_ws (split "010" s)).
Proof.
  unfold token_lines, split. rewrite scan_split.
  destruct (split_by (Ascii.eqb "010") s) as [h t].
  cbn [fst snd map]. now rewrite split_ws_cons_token.
Qed.

Lemma scan_equiv_tokens s1 s2 :
  scan_equiv (scan s1) (scan s2) -> token_lines s1 = token_lines s2.
Proof.
  unfold scan_equiv, token_lines.
  destruct (scan s1) as [[tok1 line1] lines1].
  destruct (scan s2) as [[tok2 line2] lines2].
  cbn [fst snd]. intros (-> & -> & H). cbn [filter]. now rewrite H.
Qed.

Lemma scan_equiv_cons c s1 s2 :
  scan_equiv (scan s1) (scan s2) ->
  scan_equiv (scan (String c s1)) (scan (String c s2)).
Proof.
  unfold scan_equiv. cbn [scan].
  destruct (scan s1) as [[tok1 line1] lines1].
  destruct (scan s2) as [[tok2 line2] lines2].
  cbn [fst snd]. intros (-> & -> & H).
  destruct (Ascii.eqb "010" c); [|destruct (isspace c)];
    cbn [fst snd filter]; rewrite ?H; auto.
Qed.

Lemma scan_equiv_space c s :
  isspace c = true ->
  scan_equiv (scan "") (scan s) -> scan_equiv (scan "") (scan (String c s)).
Proof.
  unfold scan_equiv. cbn [scan]. intros Hc.
  destruct (scan s) as [[tok line] lines].
  cbn [fst snd filter]. intros (Ht & Hl & Hf). subst tok line.
  destruct (Ascii.eqb "010" c); [|rewrite Hc]; cbn [fst snd filter cons_token nonempty nonnil];
    auto.
Qed.

Lemma token_lines_space c s :
  isspace c = true -> token_lines (String c s) = token_lines s.
Proof.
  unfold token_lines. cbn [scan]. intros Hc.
  destruct (scan s) as [[tok line] lines].
  destruct (Ascii.eqb "010" c); [|rewrite Hc]; reflexivity.
Qed.

Lemma token_lines_lstrip s : token_lines (lstrip s) = token_lines s.
Proof.
  induction s as [|c s IH]; [reflexivity|].
  cbn [lstrip]. destruct (isspace c) eqn:Hc; [|reflexivity].
  now rewrite token_lines_space.
Qed.

Lemma scan_rstrip s : scan_equiv (scan (rstrip s)) (scan s).
Proof.
  induction s as [|c s IH].
  - repeat split.
  - cbn [rstrip].
    destruct (isspace c && negb (nonempty (rstrip s))) eqn:Hb.
    + apply andb_true_iff in Hb as [Hc Hr].
      destruct (rstrip s); [|discriminate].
      now apply scan_equiv_space.
    + now apply scan_equiv_cons.
Qed.

(** Trimming a text keeps the tokens of its lines. *)
Lemma token_lines_strip s : token_lines (strip s) = token_lines s.
Proof.
  unfold strip. rewrite <- (token_lines_lstrip s).
  apply scan_equiv_tokens, scan_rstrip.
Qed.

Lemma jps_update_tokens processes line :
  jps_update processes line = tokens_update processes (split_ws line).
Proof. reflexivity. Qed.

Lemma fold_jps_update_tokens lines :
  forall processes,
    fold_left jps_update lines processes
    = fold_left tokens_update (filter nonnil (map split_ws lines)) processes.
Proof.
  induction lines as [|l lines IH]; intros processes; [reflexivity|].
  cbn [fold_left map filter]. rewrite IH, jps_update_tokens.
  now destruct (split_ws l).
Qed.

Lemma fold_jps_update_strip out :
  fold_left jps_update (split "010" (strip out)) []
  = fold_left jps_update (nonempty_lines out) [].
Proof.
  rewrite fold_jps_update_tokens, <- token_lines_split, token_lines_strip.
  rewrite token_lines_split, <- fold_jps_update_tokens.
  unfold nonempty_lines. generalize (@nil (string * pyval)).
  induction (split "010" out) as [|l lines IH]; intros d; [reflexivity|].
  cbn [filter fold_left]. destruct l as [|c l]; cbn [nonempty]; apply IH.
Qed.

Lemma jps_update_well_formed processes line :
  well_formed_line line ->
  jps_update processes line
  = dict_set (line_pid line) (VStr (line_command line)) processes.
Proof.
  unfold well_formed_line, jps_update, line_pid.
  destruct (split_ws line) as [|pid [|tok toks]]; simpl; intros H;
    [lia|lia|reflexivity].
Qed.

Lemma fold_jps_update_well_formed lines :
  Forall well_formed_line lines ->
  forall processes,
    fold_left jps_update lines processes
    = fold_left
        (fun d l => dict_set (line_pid l) (VStr (line_command l)) d)
        lines processes.
Proof.
  induction 1 as [|l lines Hl _ IH]; intros processes; [reflexivity|].
  cbn [fold_left]. now rewrite jps_update_well_formed, IH.
Qed.

Lemma dict_get_app key d1 d2 :
  dict_get key (d1 ++ d2)
  = match dict_get key d1 with
    | Some v => Some v
    | None => dict_get key d2
    end.
Proof.
  induction d1 as [|[k v] d1 IH]; [reflexivity|].
  simpl. now destruct (String.eqb k key).
Qed.

(** In a dictionary filled entry by entry, the last entry of a key decides. *)
Lemma fold_dict_set_get (A : Type) (key : A -> string) (val : A -> pyval) k :
  forall items acc,
    dict_get k (fold_left (fun d x => dict_set (key x) (val x) d) items acc)
    = match dict_get k (rev (map (fun x => (key x, val x)) items)) with
      | Some v => Some v
      | None => dict_get k acc
      end.
Proof.
  induction items as [|x items IH]; intros acc; [reflexivity|].
  cbn [fold_left map rev]. rewrite IH, dict_get_app.
  destruct (dict_get k (rev _)); [reflexivity|].
  simpl. destruct (String.eqb (key x) k) eqn:E.
  - apply String.eqb_eq in E. subst. apply dict_get_set_same.
  - apply dict_get_set_other. intros ->. now rewrite String.eqb_refl in E.
Qed.

(** C3 (as amended).  When the process listing succeeds and each of its
    non-empty lines has a process id and at least one more token, the
    mapping of [get_java_processes] holds, for every process id, the
    remaining tokens of the last line of this id, joined by single spaces;
    when no two lines have the same id, the mapping has exactly one entry
    for every non-empty line, in the order of the lines. *)
Theorem C3_one_entry_per_line :
  forall (subprocess_run : list string -> result CompletedProcess)
         (r : CompletedProcess),
    subprocess_run jps_argv = Ok r ->
    returncode r = 0%Z ->
    Forall well_formed_line (nonempty_lines (stdout r)) ->
    exists processes,
      get_java_processes subprocess_run = Ok processes /\
      (forall pid,
          dict_get pid processes
          = last_command pid (nonempty_lines (stdout r))) /\
      (NoDup (map line_pid (nonempty_lines (stdout r))) ->
       processes = map line_entry (nonempty_lines (stdout r))).
Proof.
  intros run r Hrun Hrc Hwf.
  rewrite (get_java_processes_success run (stdout r) r Hrun Hrc eq_refl).
  rewrite fold_jps_update_strip, fold_jps_update_well_formed by assumption.
  eexists. split; [reflexivity|]. split.
  - intros pid.
    rewrite (fold_dict_set_get _ line_pid (fun l => VStr (line_command l))).
    unfold last_command, line_entry. now destruct (dict_get pid _).
  - intros Hnd.
    now rewrite (fold_dict_set_nodup _ line_pid (fun l => VStr (line_command l))).
Qed.

Lemma C3_witness :
  get_java_processes sample_host
  = Ok [("4242", VStr "Bootstrap start"); ("4300", VStr "Jps -v")].
Proof.
  destruct (C3_one_entry_per_line sample_host
              {| returncode := 0;
                 stdout := "4242 Bootstrap start" ++ nl ++ "4300 Jps -v" ++ nl |})
    as (processes & Hp & _ & Hexact).
  - reflexivity.
  - reflexivity.
  - repeat constructor.
  - rewrite Hp. f_equal. apply Hexact.
    repeat constructor; simpl; intuition discriminate.
Defined.

(** C3 as stated fails: two well-formed lines with the same process id
    leave one entry, that of the second line, not one for each line. *)
Lemma C3_counterexample :
  Forall well_formed_line (nonempty_lines ("1234 Main" ++ nl ++ "1234 Other")) /\
  List.length (nonempty_lines ("1234 Main" ++ nl ++ "1234 Other")) = 2 /\
  get_java_processes (prints ("1234 Main" ++ nl ++ "1234 Other"))
  = Ok [("1234", VStr "Other")].
Proof.
  split; [|split; reflexivity].
  repeat constructor.
Qed.

(** * Further properties *)

(** ** Tokens *)

Lemma split_by_app_sep p a c b :
  p c = true ->
  split_by p (a ++ String c b)
  = (fst (split_by p a),
     snd (split_by p a) ++ fst (split_by p b) :: snd (split_by p b)).
Proof.
  intros Hc. induction a as [|x a IH]; simpl.
  - rewrite Hc. now destruct (split_by p b).
  - rewrite IH. destruct (split_by p a) as [h t]. simpl.
    now destruct (p x).
Qed.

Lemma split_ws_app_space a c b :
  isspace c = true -> split_ws (a ++ String c b) = split_ws a ++ split_ws b.
Proof.
  intros Hc. unfold split_ws. rewrite split_by_app_sep by assumption.
  destruct (split_by isspace a) as [ha ta].
  destruct (split_by isspace b) as [hb tb]. cbn [fst snd].
  now rewrite app_comm_cons, filter_app.
Qed.

Lemma split_by_free p s :
  all_chars (fun c => negb (p c)) (fst (split_by p s)) = true /\
  Forall (fun t => all_chars (fun c => negb (p c)) t = true)
    (snd (split_by p s)).
Proof.
  induction s as [|c s [IHh IHt]]; simpl.
  - split; [reflexivity|constructor].
  - destruct (split_by p s) as [h t]. cbn [fst snd] in *.
    destruct (p c) eqn:Hc; cbn [fst snd].
    + split; [reflexivity|]. now constructor.
    + split; [|assumption]. simpl. now rewrite Hc.
Qed.

Lemma split_ws_tokens s : Forall (fun t => is_token t = true) (split_ws s).
Proof.
  unfold split_ws. destruct (split_by_free isspace s) as [Hh Ht].
  destruct (split_by isspace s) as [h t]. cbn [fst snd] in *.
  apply Forall_forall. intros x Hx. apply filter_In in Hx as [Hin Hne].
  unfold is_token. rewrite Hne. simpl.
  destruct Hin as [<-|Hin]; [assumption|].
  now apply (proj1 (Forall_forall _ _) Ht).
Qed.

Lemma split_by_none p s :
  all_chars (fun c => negb (p c)) s = true -> split_by p s = (s, []).
Proof.
  induction s as [|c s IH]; simpl; [reflexivity|].
  intros H. apply andb_true_iff in H as [Hc Hs].
  rewrite IH by assumption. apply negb_true_iff in Hc. now rewrite Hc.
Qed.

Lemma split_ws_token t : is_token t = true -> split_ws t = [t].
Proof.
  unfold is_token, split_ws. intros H. apply andb_true_iff in H as [Hne Hall].
  rewrite split_by_none by assumption. simpl. now rewrite Hne.
Qed.

(** The three command lines, for any [pid]. *)
Lemma argv_tokens pid :
  classloaders_argv pid = "jcmd" :: split_ws pid ++ ["VM.classloaders"] /\
  jstack_argv pid = "jstack" :: split_ws pid /\
  properties_argv pid = "jcmd" :: split_ws pid ++ ["VM.system_properties"].
Proof.
  unfold classloaders_argv, jstack_argv, properties_argv.
  split; [|split].
  - change ("jcmd " ++ pid ++ " VM.classloaders")%string
      with ("jcmd" ++ String " " (pid ++ String " " "VM.classloaders"))%string.
    now rewrite !split_ws_app_space by reflexivity.
  - change ("jstack " ++ pid)%string
      with ("jstack" ++ String " " pid)%string.
    now rewrite split_ws_app_space by reflexivity.
  - change ("jcmd " ++ pid ++ " VM.system_properties")%string
      with ("jcmd" ++ String " " (pid ++ String " " "VM.system_properties"))%string.
    now rewrite !split_ws_app_space by reflexivity.
Qed.

(** ** More on the process listing *)

Lemma keys_dict_set_incl k v d x :
  In x (keys (dict_set k v d)) -> x = k \/ In x (keys d).
Proof.
  destruct (in_dec string_dec k (keys d)) as [Hin|Hn].
  - rewrite keys_dict_set_old by assumption. auto.
  - rewrite dict_set_new by assumption. unfold keys. rewrite map_app.
    intros H. apply in_app_or in H as [H|[H|[]]]; auto.
Qed.

Lemma dict_set_entries k v d x w :
  In (x, w) (dict_set k v d) -> (x = k /\ w = v) \/ In (x, w) d.
Proof.
  induction d as [|[k' v'] d IH]; simpl.
  - intros [[= <- <-]|[]]. now left.
  - destruct (String.eqb k' k) eqn:E.
    + apply String.eqb_eq in E. subst k'.
      intros [[= <- <-]|H]; auto.
    + intros [H|H]; auto. destruct (IH H); auto.
Qed.

Lemma jps_update_listed d line :
  Forall listed d -> Forall listed (jps_update d line).
Proof.
  intros Hd. unfold jps_update, line_command.
  pose proof (split_ws_tokens line) as Ht.
  destruct (split_ws line) as [|pid [|tok toks]]; auto.
  apply Forall_forall. intros [x w] Hin.
  apply dict_set_entries in Hin as [[-> ->]|Hin].
  - split.
    + now inversion Ht.
    + exists tok, toks. split; [now inversion Ht|reflexivity].
  - now apply (proj1 (Forall_forall _ _) Hd).
Qed.

Lemma fold_jps_update_listed lines :
  forall d, Forall listed d -> Forall listed (fold_left jps_update lines d).
Proof.
  induction lines as [|l lines IH]; intros d Hd; simpl; auto.
  apply IH. now apply jps_update_listed.
Qed.

Lemma get_java_processes_cases run :
  get_java_processes run = Ok [] \/
  exists r, run jps_argv = Ok r /\ returncode r = 0%Z /\
            get_java_processes run
            = Ok (fold_left jps_update (split "010" (strip (stdout r))) []).
Proof.
  destruct (run jps_argv) as [r|e] eqn:Hrun.
  - destruct (Z.eq_dec (returncode r) 0) as [Hrc|Hrc].
    + right. exists r. split; [reflexivity|]. split; [assumption|].
      now apply (get_java_processes_success run (stdout r) r).
    + left. apply get_java_processes_failed.
      unfold invocation_failed. now rewrite Hrun.
  - left. apply get_java_processes_failed.
    unfold invocation_failed. now rewrite Hrun.
Qed.

Lemma get_java_processes_listed run processes :
  get_java_processes run = Ok processes -> Forall listed processes.
Proof.
  destruct (get_java_processes_cases run) as [H|(r & _ & _ & H)];
    rewrite H; intros [= <-].
  - constructor.
  - apply fold_jps_update_listed. constructor.
Qed.

Lemma listed_key processes pid :
  Forall listed processes -> In pid (keys processes) -> is_token pid = true.
Proof.
  intros Hl Hin. apply in_map_iff in Hin as ([k v] & <- & Hin).
  now apply (proj1 (Forall_forall _ _) Hl) in Hin as [Hk _].
Qed.

(** X1.  Every key of the mapping of [get_java_processes] is a token, not
    empty and free of whitespace, and every value is one or more tokens
    joined by single spaces. *)
Theorem X1_processes_are_tokens :
  forall (subprocess_run : list string -> result CompletedProcess)
         (processes : dict),
    get_java_processes subprocess_run = Ok processes ->
    Forall listed processes.
Proof. exact get_java_processes_listed. Qed.

Lemma X1_witness :
  Forall listed [("4242", VStr "Bootstrap start"); ("4300", VStr "Jps -v")].
Proof.
  apply (X1_processes_are_tokens (prints crlf_listing)). reflexivity.
Defined.

(** X2.  For a process id that [get_java_processes] returns, the three
    analyses run [jcmd <pid> VM.classloaders], [jstack <pid>] and
    [jcmd <pid> VM.system_properties], the process id being one argument of
    its own. *)
Theorem X2_commands_of_a_listed_process :
  forall (subprocess_run : list string -> result CompletedProcess)
         (processes : dict) (pid : string),
    get_java_processes subprocess_run = Ok processes ->
    In pid (keys processes) ->
    classloaders_argv pid = ["jcmd"; pid; "VM.classloaders"] /\
    jstack_argv pid = ["jstack"; pid] /\
    properties_argv pid = ["jcmd"; pid; "VM.system_properties"].
Proof.
  intros run processes pid Hp Hin.
  apply get_java_processes_listed in Hp.
  pose proof (listed_key processes pid Hp Hin) as Htok.
  destruct (argv_tokens pid) as (-> & -> & ->).
  now rewrite (split_ws_token pid Htok).
Qed.

Lemma X2_witness :
  classloaders_argv "4242" = ["jcmd"; "4242"; "VM.classloaders"] /\
  jstack_argv "4242" = ["jstack"; "4242"] /\
  properties_argv "4242" = ["jcmd"; "4242"; "VM.system_properties"].
Proof.
  apply (X2_commands_of_a_listed_process sample_host
           [("4242", VStr "Bootstrap start"); ("4300", VStr "Jps -v")]).
  - reflexivity.
  - left. reflexivity.
Defined.

Lemma fold_jps_update_has_command lines :
  forall d,
    fold_left jps_update lines d
    = fold_left jps_update (filter has_command lines) d.
Proof.
  induction lines as [|l lines IH]; intros d; [reflexivity|].
  cbn [fold_left filter]. unfold has_command at 1.
  destruct (Nat.ltb 1 (List.length (split_ws l))) eqn:E.
  - cbn [fold_left]. apply IH.
  - rewrite <- IH. f_equal. unfold jps_update.
    destruct (split_ws l) as [|pid [|tok toks]]; auto. discriminate.
Qed.

Lemma has_command_well_formed lines :
  Forall well_formed_line (filter has_command lines).
Proof.
  apply Forall_forall. intros l Hl. apply filter_In in Hl as [_ Hl].
  unfold has_command in Hl. apply Nat.ltb_lt in Hl.
  unfold well_formed_line. lia.
Qed.

Lemma filter_has_command_nonempty lines :
  filter has_command (filter nonempty lines) = filter has_command lines.
Proof.
  induction lines as [|l lines IH]; [reflexivity|].
  destruct l as [|c l]; cbn [filter nonempty].
  - change (has_command "") with false. cbn iota. apply IH.
  - destruct (has_command (String c l)); now rewrite IH.
Qed.

(** X3.  After a successful listing the mapping of [get_java_processes]
    holds, for every process id, the command of the last line that starts
    with this id and has at least one more token; lines with fewer than two
    tokens leave nothing. *)
Theorem X3_lines_without_command_skipped :
  forall (subprocess_run : list string -> result CompletedProcess)
         (r : CompletedProcess),
    subprocess_run jps_argv = Ok r ->
    returncode r = 0%Z ->
    exists processes,
      get_java_processes subprocess_run = Ok processes /\
      forall pid,
        dict_get pid processes
        = last_command pid (filter has_command (split "010" (stdout r))).
Proof.
  intros run r Hrun Hrc.
  rewrite (get_java_processes_success run (stdout r) r Hrun Hrc eq_refl).
  rewrite fold_jps_update_strip, fold_jps_update_has_command.
  unfold nonempty_lines. rewrite filter_has_command_nonempty.
  rewrite fold_jps_update_well_formed by apply has_command_well_formed.
  eexists. split; [reflexivity|]. intros pid.
  rewrite (fold_dict_set_get _ line_pid (fun l => VStr (line_command l))).
  unfold last_command, line_entry. now destruct (dict_get pid _).
Qed.

Lemma X3_witness :
  exists processes,
    get_java_processes (prints ("4242" ++ nl ++ "4300 Jps -v")) = Ok processes /\
    dict_get "4242" processes = None /\
    dict_get "4300" processes = Some (VStr "Jps -v").
Proof.
  destruct (X3_lines_without_command_skipped
              (prints ("4242" ++ nl ++ "4300 Jps -v"))
              {| returncode := 0; stdout := "4242" ++ nl ++ "4300 Jps -v" |})
    as (processes & Hp & Hget); [reflexivity|reflexivity|].
  exists processes. split; [exact Hp|]. split.
  - rewrite Hget. reflexivity.
  - rewrite Hget. reflexivity.
Defined.

Lemma get_java_processes_tokens run r :
  run jps_argv = Ok r -> returncode r = 0%Z ->
  get_java_processes run
  = Ok (fold_left tokens_update
          (filter nonnil (map split_ws (split "010" (stdout r)))) []).
Proof.
  intros Hrun Hrc.
  rewrite (get_java_processes_success run (stdout r) r Hrun Hrc eq_refl).
  now rewrite fold_jps_update_tokens, <- token_lines_split, token_lines_strip,
    token_lines_split.
Qed.

(** X4.  The mapping of [get_java_processes] depends on the tokens of the
    lines only: two listings whose lines have the same tokens, lines without
    tokens left aside, give the same mapping, however they are indented,
    spaced or ended. *)
Theorem X4_listing_whitespace_is_irrelevant :
  forall (run1 run2 : list string -> result CompletedProcess)
         (r1 r2 : CompletedProcess),
    run1 jps_argv = Ok r1 -> returncode r1 = 0%Z ->
    run2 jps_argv = Ok r2 -> returncode r2 = 0%Z ->
    filter nonnil (map split_ws (split "010" (stdout r1)))
    = filter nonnil (map split_ws (split "010" (stdout r2))) ->
    get_java_processes run1 = get_java_processes run2.
Proof.
  intros run1 run2 r1 r2 H1 Hrc1 H2 Hrc2 Heq.
  rewrite (get_java_processes_tokens run1 r1 H1 Hrc1).
  rewrite (get_java_processes_tokens run2 r2 H2 Hrc2).
  now rewrite Heq.
Qed.

Lemma X4_witness :
  get_java_processes (prints crlf_listing) = get_java_processes sample_host.
Proof.
  apply (X4_listing_whitespace_is_irrelevant (prints crlf_listing) sample_host
           {| returncode := 0; stdout := crlf_listing |}
           {| returncode := 0;
              stdout := "4242 Bootstrap start" ++ nl ++ "4300 Jps -v" ++ nl |});
    reflexivity.
Defined.

(** ** The analyses when the tool succeeds *)

(** X5.  When its tool exits with code 0, [analyze_web_components] returns
    the records that [_parse_classloader_output] reads from the output of
    [jcmd], and [analyze_threads] those that [_parse_thread_dump] reads
    from the output of [jstack]; the tool gets the tokens of [pid] as
    arguments. *)
Theorem X5_analyses_return_parsed_output :
  forall (subprocess_run : list string -> result CompletedProcess)
         (pid : string) (r : CompletedProcess),
    returncode r = 0%Z ->
    (subprocess_run ("jcmd" :: split_ws pid ++ ["VM.classloaders"]) = Ok r ->
     analyze_web_components subprocess_run pid
     = _parse_classloader_output (stdout r)) /\
    (subprocess_run ("jstack" :: split_ws pid) = Ok r ->
     analyze_threads subprocess_run pid = _parse_thread_dump (stdout r)).
Proof.
  intros run pid r Hrc. destruct (argv_tokens pid) as (Hc & Hj & _).
  split; intros Hrun.
  - unfold analyze_web_components, try_except. fold (classloaders_argv pid).
    rewrite Hc, Hrun. cbn [bind]. rewrite Hrc. cbn [Z.eqb].
    unfold _parse_classloader_output.
    now rewrite parse_classloader_lines_ok.
  - unfold analyze_threads, try_except. fold (jstack_argv pid).
    rewrite Hj, Hrun. cbn [bind]. rewrite Hrc. cbn [Z.eqb].
    unfold _parse_thread_dump. now rewrite parse_thread_lines_ok.
Qed.

Lemma X5_witness :
  analyze_web_components sample_host "4242"
  = _parse_classloader_output ("ClassLoader app" ++ nl ++ "  parent: platform" ++ nl) /\
  analyze_threads sample_host " 4242 "
  = _parse_thread_dump
      (quote ++ "main" ++ quote ++ " #1 prio=5" ++ nl
       ++ "   java.lang.Thread.State: RUNNABLE" ++ nl
       ++ tab ++ "at a.b.c(X.java:1)" ++ nl).
Proof.
  split.
  - apply (X5_analyses_return_parsed_output sample_host "4242"
             {| returncode := 0;
                stdout := "ClassLoader app" ++ nl ++ "  parent: platform" ++ nl |});
      reflexivity.
  - apply (X5_analyses_return_parsed_output sample_host " 4242 "
             {| returncode := 0;
                stdout := quote ++ "main" ++ quote ++ " #1 prio=5" ++ nl
                          ++ "   java.lang.Thread.State: RUNNABLE" ++ nl
                          ++ tab ++ "at a.b.c(X.java:1)" ++ nl |});
      reflexivity.
Defined.

(** ** Lines that a record parser passes over *)

Section InertLines.

Variable is_header : string -> bool.
Variable new_record : string -> dict.
Variable add_line : dict -> string -> dict.
Variable counts : string -> bool.

Hypothesis inert_no_header : forall l, counts l = false -> is_header l = false.
Hypothesis inert_no_change :
  forall d l, counts l = false -> add_line d l = d.

Lemma record_step_inert st l :
  counts l = false -> record_step is_header new_record add_line st l = st.
Proof.
  intros Hl. destruct st as [records current]. unfold record_step.
  rewrite (inert_no_header l Hl), (inert_no_change current l Hl).
  now destruct (truthy current).
Qed.

Lemma parse_records_inert lines :
  parse_records is_header new_record add_line (filter counts lines)
  = parse_records is_header new_record add_line lines.
Proof.
  unfold parse_records. generalize (@nil pyval, @nil (string * pyval)).
  induction lines as [|l lines IH]; intros st; [reflexivity|].
  cbn [filter fold_left]. destruct (counts l) eqn:Hl.
  - cbn [fold_left]. apply IH.
  - rewrite record_step_inert by assumption. apply IH.
Qed.

End InertLines.

Lemma loader_inert_no_header l :
  loader_line_counts l = false -> is_loader_marker l = false.
Proof. unfold loader_line_counts. now destruct (is_loader_marker l). Qed.

Lemma loader_inert_no_change d l :
  loader_line_counts l = false -> add_loader_field d l = d.
Proof.
  unfold loader_line_counts, add_loader_field.
  destruct (loader_field l) as [[k v]|]; [|reflexivity].
  now rewrite orb_true_r.
Qed.

(** X6.  [_parse_classloader_output] reads the marker lines and the lines
    with exactly one colon, and nothing else: two outputs that have the same
    such lines, in the same order, give the same records. *)
Theorem X6_classloader_other_lines_ignored :
  forall (output1 output2 : string),
    filter loader_line_counts (split "010" output1)
    = filter loader_line_counts (split "010" output2) ->
    _parse_classloader_output output1 = _parse_classloader_output output2.
Proof.
  intros output1 output2 Heq. unfold _parse_classloader_output.
  rewrite !parse_classloader_lines_ok. f_equal.
  rewrite <- (parse_records_inert _ _ _ loader_line_counts
                loader_inert_no_header loader_inert_no_change
                (split "010" output1)).
  rewrite <- (parse_records_inert _ _ _ loader_line_counts
                loader_inert_no_header loader_inert_no_change
                (split "010" output2)).
  now rewrite Heq.
Qed.

Lemma X6_witness :
  _parse_classloader_output
    ("ClassLoader app" ++ nl ++ nl ++ "  url: jar:file" ++ nl
     ++ "  parent: platform" ++ nl ++ "  no colon here")
  = _parse_classloader_output
      ("ClassLoader app" ++ nl ++ "  parent: platform").
Proof.
  apply X6_classloader_other_lines_ignored. reflexivity.
Defined.

Lemma add_loader_field_get key d line :
  dict_get key (add_loader_field d line)
  = match loader_field line with
    | Some (k, v) => if String.eqb k key then Some (VStr v) else dict_get key d
    | None => dict_get key d
    end.
Proof.
  unfold add_loader_field. destruct (loader_field line) as [[k v]|]; auto.
  destruct (String.eqb k key) eqn:E.
  - apply String.eqb_eq in E. subst. apply dict_get_set_same.
  - apply dict_get_set_other. intros ->. now rewrite String.eqb_refl in E.
Qed.

Lemma fold_add_loader_field_get key body :
  forall d,
    dict_get key (fold_left add_loader_field body d)
    = match last_field key body with
      | Some v => Some (VStr v)
      | None => dict_get key d
      end.
Proof.
  induction body as [|l body IH]; intros d; simpl; [reflexivity|].
  rewrite IH, add_loader_field_get.
  destruct (last_field key body); [reflexivity|].
  destruct (loader_field l) as [[k v]|]; [|reflexivity].
  now destruct (String.eqb k key).
Qed.

(** The records of an input cut at a marker line, as in C2. *)
Lemma classloader_segment output pre marker body post :
  split "010" output = pre ++ marker :: body ++ post ->
  is_loader_marker marker = true ->
  Forall (fun l => is_loader_marker l = false) body ->
  (post = [] \/ exists m ls, post = m :: ls /\ is_loader_marker m = true) ->
  _parse_classloader_output output
  = Ok (parse_records is_loader_marker new_loader add_loader_field pre
        ++ loader_record marker body
        :: parse_records is_loader_marker new_loader add_loader_field post).
Proof.
  intros Hlines Hm Hbody Hpost.
  unfold _parse_classloader_output. rewrite Hlines.
  rewrite parse_classloader_lines_ok. f_equal.
  rewrite parse_records_header by auto using add_loader_field_truthy.
  f_equal. apply parse_records_segment; auto using add_loader_field_truthy.
  destruct Hpost as [->|(m & ls & -> & Hm')]; [reflexivity|].
  now rewrite group_header.
Qed.

(** X7.  In the record of a class loader, a key holds the value of the last
    line of the loader with this key; [type] holds the trimmed marker line
    unless a line of the loader has the key [type]; any other key is
    absent. *)
Theorem X7_classloader_record_lookup :
  forall (output : string) (pre : list string) (marker : string)
         (body post : list string),
    split "010" output = pre ++ marker :: body ++ post ->
    is_loader_marker marker = true ->
    Forall (fun l => is_loader_marker l = false) body ->
    (post = [] \/ exists m ls, post = m :: ls /\ is_loader_marker m = true) ->
    exists before record after,
      _parse_classloader_output output
      = Ok (before ++ VDict record :: after) /\
      List.length before = List.length (filter is_loader_marker pre) /\
      forall key,
        dict_get key record
        = match last_field key body with
          | Some v => Some (VStr v)
          | None =>
              if String.eqb "type" key then Some (VStr (strip marker))
              else None
          end.
Proof.
  intros output pre marker body post Hlines Hm Hbody Hpost.
  rewrite (classloader_segment output pre marker body post) by assumption.
  do 3 eexists. split; [reflexivity|]. split.
  - apply parse_records_length; auto using add_loader_field_truthy.
  - intros key. cbn [fst snd]. now rewrite fold_add_loader_field_get.
Qed.

Lemma X7_witness :
  exists before record after,
    _parse_classloader_output
      ("ClassLoader app" ++ nl ++ "name: a" ++ nl ++ "type: custom" ++ nl
       ++ "name: b")
    = Ok (before ++ VDict record :: after) /\
    dict_get "name" record = Some (VStr "b") /\
    dict_get "type" record = Some (VStr "custom") /\
    dict_get "url" record = None.
Proof.
  destruct (X7_classloader_record_lookup
              ("ClassLoader app" ++ nl ++ "name: a" ++ nl ++ "type: custom" ++ nl
               ++ "name: b")
              [] "ClassLoader app" ["name: a"; "type: custom"; "name: b"] [])
    as (before & record & after & Hp & _ & Hget).
  - reflexivity.
  - reflexivity.
  - repeat constructor.
  - now left.
  - exists before, record, after. split; [exact Hp|].
    rewrite !Hget. repeat split.
Defined.

(** ** Trimming *)

Lemma rstrip_idempotent s : rstrip (rstrip s) = rstrip s.
Proof.
  induction s as [|c s IH]; [reflexivity|].
  cbn [rstrip].
  destruct (isspace c && negb (nonempty (rstrip s))) eqn:Hb; [reflexivity|].
  cbn [rstrip]. now rewrite IH, Hb.
Qed.

Lemma strip_trimmed s : trimmed (strip s).
Proof.
  unfold trimmed, strip.
  destruct (lstrip_start s) as [->|(c & t & -> & Hc)]; [reflexivity|].
  rewrite rstrip_nonspace by assumption.
  rewrite lstrip_nonspace by assumption.
  rewrite rstrip_nonspace by assumption.
  now rewrite rstrip_idempotent.
Qed.

Lemma lstrip_all_chars p s :
  all_chars p s = true -> all_chars p (lstrip s) = true.
Proof.
  induction s as [|c s IH]; [reflexivity|].
  intros H. cbn [lstrip]. destruct (isspace c); [|assumption].
  apply IH. simpl in H. now apply andb_true_iff in H.
Qed.

Lemma rstrip_all_chars p s :
  all_chars p s = true -> all_chars p (rstrip s) = true.
Proof.
  induction s as [|c s IH]; [reflexivity|].
  intros H. simpl in H. apply andb_true_iff in H as [Hc Hs].
  cbn [rstrip]. destruct (isspace c && negb (nonempty (rstrip s)));
    [reflexivity|].
  simpl. now rewrite Hc, IH.
Qed.

Lemma strip_all_chars p s :
  all_chars p s = true -> all_chars p (strip s) = true.
Proof. intros H. now apply rstrip_all_chars, lstrip_all_chars. Qed.

Lemma partition_none_all_chars sep s :
  partition sep s = None
  <-> all_chars (fun c => negb (Ascii.eqb c sep)) s = true.
Proof.
  induction s as [|c s IH]; simpl; [tauto|].
  destruct (Ascii.eqb c sep); simpl.
  - split; discriminate.
  - rewrite <- IH. destruct (partition sep s) as [[a b]|]; split; congruence.
Qed.

Lemma partition_before_free sep s a b :
  partition sep s = Some (a, b) -> partition sep a = None.
Proof.
  revert a b. induction s as [|c s IH]; intros a b; simpl; [discriminate|].
  destruct (Ascii.eqb c sep) eqn:E.
  - intros [= <- _]. reflexivity.
  - destruct (partition sep s) as [[x y]|]; [|discriminate].
    intros [= <- _]. simpl. now rewrite E, (IH x y eq_refl).
Qed.

Lemma strip_no_char sep s :
  contains (String sep "") s = false ->
  contains (String sep "") (strip s) = false.
Proof.
  rewrite !contains_char_partition, !partition_none_all_chars.
  apply strip_all_chars.
Qed.

(** ** More on thread records *)

Lemma state_text_split line :
  state_text line = strip (nth 1 (split ":" line) "").
Proof.
  unfold state_text. rewrite split_partition.
  destruct (partition ":" line) as [[a b]|]; [|reflexivity].
  rewrite split_partition. now destruct (partition ":" b) as [[x y]|].
Qed.

Lemma add_thread_line_record name state stack line :
  add_thread_line (thread_record name state stack) line
  = thread_record name
      (if is_state_line line then VStr (state_text line) else state)
      (if is_frame_line line then stack ++ [VStr (strip line)] else stack).
Proof.
  unfold add_thread_line, is_frame_line, is_state_line.
  rewrite state_text_split.
  destruct (contains "java.lang.Thread.State:" line); [reflexivity|].
  cbn [negb andb]. now destruct (startswith (strip line) "at ").
Qed.

Lemma thread_body_record body :
  forall name state stack,
    fold_left add_thread_line body (thread_record name state stack)
    = thread_record name
        (fold_left
           (fun s l => if is_state_line l then VStr (state_text l) else s)
           body state)
        (stack ++ thread_stack body).
Proof.
  unfold thread_stack.
  induction body as [|l body IH]; intros name state stack.
  - simpl. now rewrite app_nil_r.
  - cbn [fold_left filter]. rewrite add_thread_line_record, IH.
    destruct (is_frame_line l); [|reflexivity].
    cbn [map]. now rewrite <- app_assoc.
Qed.

Lemma thread_record_of header body :
  is_thread_header header = true ->
  record_of new_thread add_thread_line (header, body)
  = VDict (thread_record (thread_name header) (thread_state body)
             (thread_stack body)).
Proof.
  intros Hh. apply startswith_char in Hh as (s & ->).
  unfold record_of. cbn [fst snd]. rewrite new_thread_name.
  now rewrite thread_body_record.
Qed.

(** X8.  The record of a thread holds the name of its header line.  Among
    the lines up to the next header, a state line is one that holds
    [java.lang.Thread.State:], wherever, and a stack frame is one that is
    no state line and whose trimmed form starts with [at ].  The state of
    the record is that of the last state line, the text between the first
    colon of this line and the next colon or the end of the line, trimmed,
    or no state when there is no state line; its stack is the trimmed stack
    frames, in order.  A line that starts with [at ] and holds
    [java.lang.Thread.State:] sets the state and is not in the stack. *)
Theorem X8_thread_record_contents :
  forall (output : string) (pre : list string) (header : string)
         (body post : list string),
    split "010" output = pre ++ header :: body ++ post ->
    is_thread_header header = true ->
    Forall (fun l => is_thread_header l = false) body ->
    (post = [] \/ exists h ls, post = h :: ls /\ is_thread_header h = true) ->
    exists before after,
      parse_thread_lines pre = Ok before /\
      parse_thread_lines post = Ok after /\
      _parse_thread_dump output
      = Ok (before
            ++ VDict (thread_record (thread_name header) (thread_state body)
                        (thread_stack body))
            :: after).
Proof.
  intros output pre header body post Hlines Hh Hbody Hpost.
  unfold _parse_thread_dump. rewrite Hlines, !parse_thread_lines_ok.
  do 2 eexists. split; [reflexivity|]. split; [reflexivity|]. f_equal.
  rewrite parse_records_header
    by auto using add_thread_line_truthy, new_thread_truthy.
  f_equal. rewrite <- thread_record_of by assumption.
  apply parse_records_segment;
    auto using add_thread_line_truthy, new_thread_truthy.
  destruct Hpost as [->|(h & ls & -> & Hh')]; [reflexivity|].
  now rewrite group_header.
Qed.

Lemma X8_witness :
  exists before after,
    parse_thread_lines ["Full thread dump OpenJDK 64-Bit Server VM:"; ""]
    = Ok before /\
    parse_thread_lines [] = Ok after /\
    _parse_thread_dump noisy_dump
    = Ok (before
          ++ VDict (thread_record "main" (VStr "WAITING (on object monitor)")
                      [VStr "at java.lang.Object.wait(Native Method)";
                       VStr "at a.b.c(X.java:1)"])
          :: after).
Proof.
  apply (X8_thread_record_contents noisy_dump
           ["Full thread dump OpenJDK 64-Bit Server VM:"; ""]
           (quote ++ "main" ++ quote ++ " #1 prio=5")%string
           ["   java.lang.Thread.State: WAITING (on object monitor)";
            (tab ++ "at java.lang.Object.wait(Native Method)")%string;
            (tab ++ "- waiting on <0x01> (a java.lang.Object)")%string;
            (tab ++ "at a.b.c(X.java:1)")%string;
            "";
            "   Locked ownable synchronizers:";
            (tab ++ "- None")%string]
           []).
  - reflexivity.
  - reflexivity.
  - repeat constructor.
  - now left.
Defined.

Lemma state_text_trimmed line : trimmed (state_text line).
Proof.
  unfold state_text. destruct (partition ":" line) as [[a b]|]; [|reflexivity].
  destruct (partition ":" b) as [[x y]|]; apply strip_trimmed.
Qed.

Lemma thread_state_shaped body : state_shaped (thread_state body).
Proof.
  unfold thread_state.
  assert (H : forall s, state_shaped s ->
              state_shaped
                (fold_left
                   (fun s l => if is_state_line l then VStr (state_text l) else s)
                   body s)).
  { induction body as [|l body IH]; intros s Hs; simpl; [assumption|].
    apply IH. destruct (is_state_line l); [|assumption].
    right. eexists. split; [reflexivity|apply state_text_trimmed]. }
  apply H. now left.
Qed.

Lemma thread_stack_shaped body : Forall frame_shaped (thread_stack body).
Proof.
  unfold thread_stack. apply Forall_forall. intros v Hv.
  apply in_map_iff in Hv as (l & <- & Hl).
  apply filter_In in Hl as [_ Hl]. unfold is_frame_line in Hl.
  apply andb_true_iff in Hl as [_ Hat].
  exists (strip l). split; [reflexivity|]. split; [apply strip_trimmed|exact Hat].
Qed.

(** X9.  [_parse_thread_dump] returns one record for every line of the
    input that starts with a quote.  Each record has the three entries
    [name], [state] and [stack], its state is [None] or a trimmed text, and
    each element of its stack is a trimmed text that starts with [at ]. *)
Theorem X9_thread_records_shape_and_count :
  forall (output : string),
    exists threads,
      _parse_thread_dump output = Ok threads /\
      List.length threads
      = List.length (filter is_thread_header (split "010" output)) /\
      Forall thread_record_shaped threads.
Proof.
  intros output. unfold _parse_thread_dump. rewrite parse_thread_lines_ok.
  eexists. split; [reflexivity|]. split.
  - apply parse_records_length;
      auto using add_thread_line_truthy, new_thread_truthy.
  - pose proof (parse_records_from_header is_thread_header new_thread
                  add_thread_line new_thread_truthy add_thread_line_truthy
                  (split "010" output)) as H.
    eapply Forall_impl; [|exact H].
    intros r (h & body & Hh & _ & ->).
    rewrite thread_record_of by assumption.
    do 3 eexists. split; [reflexivity|].
    split; [apply thread_state_shaped|apply thread_stack_shaped].
Qed.

Lemma thread_inert_no_header l :
  thread_line_counts l = false -> is_thread_header l = false.
Proof.
  unfold thread_line_counts. destruct (is_thread_header l); [discriminate|auto].
Qed.

Lemma thread_inert_no_change d l :
  thread_line_counts l = false -> add_thread_line d l = d.
Proof.
  unfold thread_line_counts, add_thread_line, is_frame_line, is_state_line.
  destruct (is_thread_header l); [discriminate|].
  destruct (contains "java.lang.Thread.State:" l); [discriminate|].
  cbn [orb negb andb]. now intros ->.
Qed.

(** X10.  [_parse_thread_dump] reads the header lines, the state lines and
    the stack frames, and nothing else: two dumps that have the same such
    lines, in the same order, give the same records. *)
Theorem X10_thread_other_lines_ignored :
  forall (output1 output2 : string),
    filter thread_line_counts (split "010" output1)
    = filter thread_line_counts (split "010" output2) ->
    _parse_thread_dump output1 = _parse_thread_dump output2.
Proof.
  intros output1 output2 Heq. unfold _parse_thread_dump.
  rewrite !parse_thread_lines_ok. f_equal.
  rewrite <- (parse_records_inert _ _ _ thread_line_counts
                thread_inert_no_header thread_inert_no_change
                (split "010" output1)).
  rewrite <- (parse_records_inert _ _ _ thread_line_counts
                thread_inert_no_header thread_inert_no_change
                (split "010" output2)).
  now rewrite Heq.
Qed.

Lemma X10_witness :
  _parse_thread_dump noisy_dump
  = _parse_thread_dump
      (quote ++ "main" ++ quote ++ " #1 prio=5" ++ nl
       ++ "   java.lang.Thread.State: WAITING (on object monitor)" ++ nl
       ++ tab ++ "at java.lang.Object.wait(Native Method)" ++ nl
       ++ tab ++ "at a.b.c(X.java:1)").
Proof.
  apply X10_thread_other_lines_ignored. reflexivity.
Defined.

(** ** More on the system properties *)

Lemma property_update_shaped d line :
  Forall property_shaped d -> Forall property_shaped (property_update d line).
Proof.
  intros Hd. unfold property_update, property_of.
  destruct (partition "=" line) as [[k v]|] eqn:Hp; [|assumption].
  apply Forall_forall. intros [x w] Hin.
  apply dict_set_entries in Hin as [[-> ->]|Hin].
  - split; [apply strip_trimmed|]. split.
    + apply strip_no_char, contains_char_partition.
      exact (partition_before_free _ _ _ _ Hp).
    + eexists. split; [reflexivity|apply strip_trimmed].
  - now apply (proj1 (Forall_forall _ _) Hd).
Qed.

Lemma fold_property_update_shaped lines :
  forall d,
    Forall property_shaped d ->
    Forall property_shaped (fold_left property_update lines d).
Proof.
  induction lines as [|l lines IH]; intros d Hd; simpl; auto.
  apply IH. now apply property_update_shaped.
Qed.

(** X11.  Whatever the tool answers, every key of the mapping of
    [analyze_system_properties] is trimmed and holds no [=], and every
    value is a trimmed text. *)
Theorem X11_properties_are_trimmed :
  forall (subprocess_run : list string -> result CompletedProcess)
         (pid : string) (properties : dict),
    analyze_system_properties subprocess_run pid = Ok properties ->
    Forall property_shaped properties.
Proof.
  intros run pid properties. unfold analyze_system_properties.
  destruct (run _) as [r|e]; [|intros [= <-]; constructor].
  destruct (Z.eqb (returncode r) 0); [|intros [= <-]; constructor].
  rewrite (for_partial_ok property_line property_update property_line_ok).
  intros [= <-]. apply fold_property_update_shaped. constructor.
Qed.

Lemma X11_witness :
  Forall property_shaped [("user.dir", VStr "/srv/app = 1"); ("x", VStr "")].
Proof.
  apply (X11_properties_are_trimmed
           (prints ("  user.dir =  /srv/app = 1 " ++ nl ++ "x=" ++ nl ++ "none"))
           "4242").
  reflexivity.
Defined.

(** ** More on scriptlets *)

Lemma append_assoc_string (a b c : string) :
  ((a ++ b) ++ c = a ++ b ++ c)%string.
Proof. induction a as [|x a IH]; simpl; [reflexivity|now rewrite IH]. Qed.

Lemma length_append (a b : string) :
  String.length (a ++ b) = String.length a + String.length b.
Proof. induction a as [|x a IH]; simpl; [reflexivity|now rewrite IH]. Qed.

Lemma until_close_spec :
  forall s body rest,
    until_close s = Some (body, rest) ->
    s = (body ++ "%>" ++ rest)%string /\ contains "%>" body = false.
Proof.
  induction s as [|c s IH]; intros body rest; cbn [until_close].
  - discriminate.
  - destruct (prefix "%>" (String c s)) eqn:Hp.
    + apply prefix_two in Hp as [r Hr]. rewrite Hr.
      intros [= <- <-]. split; reflexivity.
    + destruct (until_close s) as [[b r]|] eqn:Hu; [|discriminate].
      intros [= <- <-]. destruct (IH b r eq_refl) as [Hs Hb].
      split; [now rewrite Hs|].
      cbn [contains]. rewrite Hb, orb_false_r.
      destruct (prefix "%>" (String c b)) eqn:Hp'; [|reflexivity].
      apply prefix_two in Hp' as [r' Hr']. injection Hr' as -> ->.
      rewrite Hs in Hp. simpl in Hp.
      assert (prefix "%>" (String "%" (String ">" (r' ++ "%>" ++ r))) = true)
        by (apply prefix_two; eauto).
      simpl in H. congruence.
Qed.

Lemma match_at_spec s m rest :
  match_at s = Some (m, rest) ->
  s = (m ++ rest)%string /\ scriptlet_shaped m.
Proof.
  unfold match_at. destruct (prefix "<%" s) eqn:Hp; [|discriminate].
  apply prefix_two in Hp as [r ->]. cbn [drop].
  destruct (until_close r) as [[b rest']|] eqn:Hu; [|discriminate].
  intros [= <- <-]. apply until_close_spec in Hu as [-> Hb].
  split.
  - simpl. now rewrite append_assoc_string.
  - exists b. split; [reflexivity|assumption].
Qed.

Lemma interleave_cons_char c g gs ms :
  interleave (String c g :: gs) ms = String c (interleave (g :: gs) ms).
Proof. destruct ms; reflexivity. Qed.

(** What the scan returns, with the gaps between the matches. *)
Lemma re_findall_gaps :
  forall n s,
    String.length s <= n ->
    Forall scriptlet_shaped (re_findall_scriptlets s) /\
    exists gaps,
      List.length gaps = S (List.length (re_findall_scriptlets s)) /\
      interleave gaps (re_findall_scriptlets s) = s.
Proof.
  induction n as [|n IH]; intros s Hn.
  - destruct s; [|simpl in Hn; lia].
    split; [constructor|]. exists [""]. split; reflexivity.
  - rewrite re_findall_step.
    destruct (match_at s) as [[m rest]|] eqn:Hm.
    + pose proof (match_at_shorter s m rest Hm) as Hlt.
      apply match_at_spec in Hm as [-> Hshape].
      destruct (IH rest) as [Hall (gaps & Hlen & Hint)]; [lia|].
      split; [now constructor|].
      exists ("" :: gaps). split; [simpl; now rewrite Hlen|].
      change (interleave ("" :: gaps) (m :: re_findall_scriptlets rest))
        with (m ++ interleave gaps (re_findall_scriptlets rest))%string.
      now rewrite Hint.
    + destruct s as [|c s].
      * split; [constructor|]. exists [""]. split; reflexivity.
      * destruct (IH s) as [Hall (gaps & Hlen & Hint)]; [simpl in Hn; lia|].
        split; [assumption|].
        destruct gaps as [|g gs]; [discriminate|].
        exists (String c g :: gs). split; [exact Hlen|].
        now rewrite interleave_cons_char, Hint.
Qed.

Lemma interleave_length :
  forall matches gaps,
    List.length gaps = S (List.length matches) ->
    total_length matches <= String.length (interleave gaps matches).
Proof.
  induction matches as [|m ms IH]; intros gaps Hlen.
  - simpl. lia.
  - destruct gaps as [|g gs]; [discriminate|].
    simpl in Hlen. assert (Hgs : List.length gs = S (List.length ms)) by lia.
    specialize (IH gs Hgs). unfold total_length in *.
    cbn [interleave fold_right]. rewrite !length_append.
    set (t := fold_right _ 0 ms) in *.
    set (u := String.length (interleave gs ms)) in *. lia.
Qed.

Lemma scriptlet_shaped_length m : scriptlet_shaped m -> 4 <= String.length m.
Proof.
  intros (body & -> & _). simpl. rewrite length_append. simpl. lia.
Qed.

Lemma total_length_bound matches :
  Forall scriptlet_shaped matches ->
  4 * List.length matches <= total_length matches.
Proof.
  induction 1 as [|m ms Hm _ IH]; [simpl; lia|].
  apply scriptlet_shaped_length in Hm. unfold total_length in *.
  cbn [fold_right List.length]. set (t := fold_right _ 0 ms) in *. lia.
Qed.

(** X12.  Every text that the scan of a content returns is a [<%], a text
    that holds no [%>], and a [%>]; the texts lie in the content one after
    the other, in the order of the list and without overlap: the content is
    a gap, the first text, a gap, the second text, and so on to a last
    gap. *)
Theorem X12_scriptlets_are_disjoint_minimal_matches :
  forall (content : string),
    Forall scriptlet_shaped (re_findall_scriptlets content) /\
    exists gaps,
      List.length gaps = S (List.length (re_findall_scriptlets content)) /\
      interleave gaps (re_findall_scriptlets content) = content.
Proof.
  intros content. now apply (re_findall_gaps (String.length content)).
Qed.

(** X13.  The count of scriptlets is never negative, and four times the
    count is at most the length of the content: every scriptlet takes its
    four delimiter characters. *)
Theorem X13_scriptlet_count_bound :
  forall (content : string),
    (0 <= count_scriptlets content)%Z /\
    (4 * count_scriptlets content <= Z.of_nat (String.length content))%Z.
Proof.
  intros content. unfold count_scriptlets.
  destruct (re_findall_gaps (String.length content) content (le_n _))
    as [Hall (gaps & Hlen & Hint)].
  pose proof (interleave_length _ _ Hlen) as H1.
  pose proof (total_length_bound _ Hall) as H2.
  rewrite Hint in H1. lia.
Qed.

(** ** The JSP scanner *)

Section ScannerFacts.

Variable os_walk :
  string -> list (string * list string * list string) * option exn.
Variable path_join : string -> string -> string.
Variable read_text : string -> result string.
Variable getsize : string -> result Z.
Variable getmtime_isoformat : string -> result string.

Lemma analyze_single_jsp_cases file_path :
  match _analyze_single_jsp read_text getsize getmtime_isoformat file_path with
  | Some record =>
      exists content size mtime,
        read_text file_path = Ok content /\
        getsize file_path = Ok size /\
        getmtime_isoformat file_path = Ok mtime /\
        VDict record = jsp_record file_path content size mtime
  | None =>
      (exists e, read_text file_path = Raise e) \/
      (exists e, getsize file_path = Raise e) \/
      (exists e, getmtime_isoformat file_path = Raise e)
  end.
Proof.
  unfold _analyze_single_jsp.
  destruct (read_text file_path) as [content|e]; cbn [bind]; [|eauto].
  destruct (getsize file_path) as [size|e]; cbn [bind]; [|eauto].
  destruct (getmtime_isoformat file_path) as [mtime|e]; cbn [bind]; [|eauto 6].
  exists content, size, mtime. repeat split.
Qed.

Lemma jsp_file_records root results file :
  jsp_file path_join read_text getsize getmtime_isoformat root results file
  = results
    ++ (if endswith file ".jsp"
        then jsp_records read_text getsize getmtime_isoformat
               (path_join root file)
        else []).
Proof.
  unfold jsp_file, jsp_records.
  destruct (endswith file ".jsp"); [|now rewrite app_nil_r].
  pose proof (analyze_single_jsp_cases (path_join root file)) as H.
  destruct (_analyze_single_jsp _ _ _ _) as [record|]; [|now rewrite app_nil_r].
  destruct H as (content & size & mtime & _ & _ & _ & [= ->]). reflexivity.
Qed.

Lemma jsp_directory_records root dirs files :
  forall results,
    jsp_directory path_join read_text getsize getmtime_isoformat results
      (root, dirs, files)
    = results
      ++ flat_map (jsp_records read_text getsize getmtime_isoformat)
           (map (path_join root) (filter (fun f => endswith f ".jsp") files)).
Proof.
  unfold jsp_directory.
  induction files as [|f files IH]; intros results.
  - simpl. now rewrite app_nil_r.
  - cbn [fold_left filter]. rewrite IH, jsp_file_records, <- app_assoc.
    now destruct (endswith f ".jsp").
Qed.

Lemma analyze_jsp_files_records directory :
  analyze_jsp_files os_walk path_join read_text getsize getmtime_isoformat
    directory
  = flat_map (jsp_records read_text getsize getmtime_isoformat)
      (jsp_paths path_join (fst (os_walk directory))).
Proof.
  unfold analyze_jsp_files. destruct (os_walk directory) as [entries error].
  cbn [fst]. change (flat_map _ (jsp_paths path_join entries))
    with ([] ++ flat_map (jsp_records read_text getsize getmtime_isoformat)
                  (jsp_paths path_join entries)).
  generalize (@nil pyval).
  induction entries as [|[[root dirs] files] entries IH]; intros results.
  - simpl. now rewrite app_nil_r.
  - cbn [fold_left]. rewrite IH, jsp_directory_records, <- app_assoc.
    f_equal. unfold jsp_paths. cbn [flat_map]. now rewrite flat_map_app.
Qed.

End ScannerFacts.

(** X14.  [analyze_jsp_files] returns, in the order of the walk, one record
    for every file whose name ends in [.jsp] and that can be read, sized and
    dated, with its joined path, its size, its date and the count of its
    scriptlets, and nothing else: a file that cannot be read is skipped and
    the files after it are still there, and the exception that may end the
    walk is not raised. *)
Theorem X14_jsp_records_of_readable_files :
  forall (os_walk : string -> list (string * list string * list string) * option exn)
         (path_join : string -> string -> string)
         (read_text : string -> result string)
         (getsize : string -> result Z)
         (getmtime_isoformat : string -> result string)
         (directory : string),
    let results :=
      analyze_jsp_files os_walk path_join read_text getsize getmtime_isoformat
        directory in
    let paths := jsp_paths path_join (fst (os_walk directory)) in
    results
    = flat_map (jsp_records read_text getsize getmtime_isoformat) paths /\
    List.length results <= List.length paths /\
    forall record,
      In record results <->
      exists file_path content size mtime,
        In file_path paths /\
        read_text file_path = Ok content /\
        getsize file_path = Ok size /\
        getmtime_isoformat file_path = Ok mtime /\
        record = jsp_record file_path content size mtime.
Proof.
  intros os_walk path_join read_text getsize getmtime directory results paths.
  subst results paths. rewrite analyze_jsp_files_records.
  split; [reflexivity|]. split.
  - induction (jsp_paths path_join (fst (os_walk directory))) as [|p ps IH];
      [simpl; lia|].
    cbn [flat_map]. rewrite length_app. unfold jsp_records at 1.
    destruct (_analyze_single_jsp _ _ _ p); simpl; lia.
  - intros record. rewrite in_flat_map. split.
    + intros (p & Hp & Hin). unfold jsp_records in Hin.
      pose proof (analyze_single_jsp_cases read_text getsize getmtime p) as H.
      destruct (_analyze_single_jsp _ _ _ p) as [r|]; [|destruct Hin].
      destruct Hin as [<-|[]].
      destruct H as (content & size & mtime & Hr & Hs & Hm & ->).
      exists p, content, size, mtime. auto.
    + intros (p & content & size & mtime & Hp & Hr & Hs & Hm & ->).
      exists p. split; [assumption|].
      unfold jsp_records, _analyze_single_jsp. rewrite Hr, Hs, Hm.
      left. reflexivity.
Qed.

(** X15.  [analyze_jsp_files] never looks at a file whose name does not end
    in [.jsp]: two file systems that agree on the joined paths of the
    [.jsp] files of the walk give the same records. *)
Theorem X15_jsp_scan_reads_jsp_files_only :
  forall (os_walk : string -> list (string * list string * list string) * option exn)
         (path_join : string -> string -> string)
         (read1 read2 : string -> result string)
         (size1 size2 : string -> result Z)
         (mtime1 mtime2 : string -> result string)
         (directory : string),
    (forall file_path,
        In file_path (jsp_paths path_join (fst (os_walk directory))) ->
        read1 file_path = read2 file_path /\
        size1 file_path = size2 file_path /\
        mtime1 file_path = mtime2 file_path) ->
    analyze_jsp_files os_walk path_join read1 size1 mtime1 directory
    = analyze_jsp_files os_walk path_join read2 size2 mtime2 directory.
Proof.
  intros os_walk path_join read1 read2 size1 size2 mtime1 mtime2 directory H.
  rewrite !analyze_jsp_files_records.
  induction (jsp_paths path_join (fst (os_walk directory))) as [|p ps IH];
    [reflexivity|].
  cbn [flat_map]. rewrite IH by (intros q Hq; apply H; now right).
  f_equal. unfold jsp_records, _analyze_single_jsp.
  destruct (H p (or_introl eq_refl)) as (-> & -> & ->). reflexivity.
Qed.

Lemma X15_witness :
  analyze_jsp_files sample_walk sample_join sample_read sample_size
    sample_mtime "app"
  = analyze_jsp_files sample_walk sample_join
      (fun path =>
         if String.eqb path "app/readme.txt" then Raise OSError
         else sample_read path)
      sample_size sample_mtime "app".
Proof.
  apply X15_jsp_scan_reads_jsp_files_only.
  intros file_path Hin. split; [|split; reflexivity].
  simpl in Hin.
  destruct Hin as [<-|[<-|[<-|[]]]]; reflexivity.
Defined.

Lemma X14_witness :
  In (jsp_record "app/WEB-INF/c.jsp" "<% out.print(1); %>" 19
        "2026-01-01T00:00:00")
    (analyze_jsp_files sample_walk sample_join sample_read sample_size
       sample_mtime "app") /\
  List.length
    (analyze_jsp_files sample_walk sample_join sample_read sample_size
       sample_mtime "app") <= 3.
Proof.
  destruct (X14_jsp_records_of_readable_files sample_walk sample_join
              sample_read sample_size sample_mtime "app")
    as (_ & Hlen & Hin).
  split; [|exact Hlen].
  apply Hin.
  exists "app/WEB-INF/c.jsp", "<% out.print(1); %>", 19%Z,
    "2026-01-01T00:00:00".
  split; [|repeat split].
  simpl. right. right. left. reflexivity.
Defined.

(** ** More on the report *)

Lemma dict_get_in_nodup k v d :
  NoDup (keys d) -> In (k, v) d -> dict_get k d = Some v.
Proof.
  induction d as [|[k' v'] d IH]; simpl; intros Hnd Hin; [destruct Hin|].
  inversion Hnd as [|? ? Hnotin Hnd']; subst.
  destruct Hin as [[= -> ->]|Hin].
  - now rewrite String.eqb_refl.
  - destruct (String.eqb k' k) eqn:E.
    + apply String.eqb_eq in E. subst k'. exfalso. apply Hnotin.
      apply in_map_iff. now exists (k, v).
    + now apply IH.
Qed.

Lemma keys_process_records run jp :
  keys (map (process_record run) jp) = keys jp.
Proof. unfold keys. rewrite map_map. reflexivity. Qed.

(** X16.  In the report of [generate_report] the record of a process holds
    the command of the listing and, under [web_components], [threads] and
    [system_properties], what the three analyses return for its process
    id. *)
Theorem X16_report_holds_the_analyses :
  forall (subprocess_run : list string -> result CompletedProcess)
         (now_isoformat : string)
         (dump_json : string -> pyval -> result unit),
  exists java_processes processes,
    get_java_processes subprocess_run = Ok java_processes /\
    generate_report subprocess_run now_isoformat dump_json None
    = Ok (VDict (report_of now_isoformat processes)) /\
    forall pid command,
      In (pid, command) java_processes ->
      exists web_components threads system_properties,
        analyze_web_components subprocess_run pid = Ok web_components /\
        analyze_threads subprocess_run pid = Ok threads /\
        analyze_system_properties subprocess_run pid = Ok system_properties /\
        dict_get pid processes
        = Some (VDict [("command", command);
                       ("web_components", VList web_components);
                       ("threads", VList threads);
                       ("system_properties", VDict system_properties)]).
Proof.
  intros run now dump.
  destruct (get_java_processes_nodup run) as (jp & Hjp & Hnd).
  destruct (generate_report_built run now dump) as (jp' & Hjp' & Hgen).
  rewrite Hjp in Hjp'. injection Hjp' as <-.
  exists jp, (map (process_record run) jp).
  split; [assumption|]. split; [apply (Hgen None)|].
  intros pid command Hin.
  destruct (analyze_web_components_returns run pid) as [wc Hwc].
  destruct (analyze_threads_returns run pid) as [th Hth].
  destruct (analyze_system_properties_returns run pid) as [sp Hsp].
  exists wc, th, sp. split; [assumption|]. split; [assumption|].
  split; [assumption|].
  apply dict_get_in_nodup.
  - now rewrite keys_process_records.
  - apply in_map_iff. exists (pid, command). split; [|assumption].
    unfold process_record. cbn [fst snd]. now rewrite Hwc, Hth, Hsp.
Qed.

Lemma X16_witness :
  exists java_processes processes,
    get_java_processes sample_host = Ok java_processes /\
    generate_report sample_host "2026-01-01T00:00:00" writable None
    = Ok (VDict (report_of "2026-01-01T00:00:00" processes)) /\
    exists web_components threads system_properties,
      analyze_threads sample_host "4300" = Ok threads /\
      dict_get "4300" processes
      = Some (VDict [("command", VStr "Jps -v");
                     ("web_components", VList web_components);
                     ("threads", VList threads);
                     ("system_properties", VDict system_properties)]).
Proof.
  destruct (X16_report_holds_the_analyses sample_host "2026-01-01T00:00:00"
              writable)
    as (jp & processes & Hjp & Hgen & Hrec).
  exists jp, processes. split; [exact Hjp|]. split; [exact Hgen|].
  destruct (Hrec "4300" (VStr "Jps -v")) as (wc & th & sp & _ & Hth & _ & Hget).
  - assert (Hs : get_java_processes sample_host
                 = Ok [("4242", VStr "Bootstrap start"); ("4300", VStr "Jps -v")])
      by reflexivity.
    rewrite Hs in Hjp. injection Hjp as <-. right. left. reflexivity.
  - exists wc, th, sp. split; assumption.
Defined.

(** X17.  When an output path is given, [generate_report] first builds the
    report and then writes it: with an empty path nothing is written and
    the report is returned as it is with no path; when the write of a
    non-empty path raises, [generate_report] raises the same exception. *)
Theorem X17_report_write_errors_propagate :
  forall (subprocess_run : list string -> result CompletedProcess)
         (now_isoformat : string)
         (dump_json : string -> pyval -> result unit)
         (path : string),
    (nonempty path = false ->
     generate_report subprocess_run now_isoformat dump_json (Some path)
     = generate_report subprocess_run now_isoformat dump_json None) /\
    (forall report e,
        nonempty path = true ->
        generate_report subprocess_run now_isoformat dump_json None
        = Ok report ->
        dump_json path report = Raise e ->
        generate_report subprocess_run now_isoformat dump_json (Some path)
        = Raise e).
Proof.
  intros run now dump path.
  destruct (generate_report_built run now dump) as (jp & _ & Hgen).
  split.
  - intros Hp. rewrite (Hgen (Some path)), (Hgen None). cbv zeta.
    now rewrite Hp.
  - intros report e Hp Hnone Hd.
    rewrite (Hgen None) in Hnone. cbv zeta in Hnone. injection Hnone as <-.
    rewrite (Hgen (Some path)). cbv zeta. now rewrite Hp, Hd.
Qed.

Lemma X17_witness :
  generate_report sample_host "2026-01-01T00:00:00" read_only (Some "")
  = generate_report sample_host "2026-01-01T00:00:00" read_only None /\
  generate_report sample_host "2026-01-01T00:00:00" read_only
    (Some "/proc/report.json")
  = Raise OSError.
Proof.
  destruct (X17_report_write_errors_propagate sample_host
              "2026-01-01T00:00:00" read_only "") as [Hempty _].
  destruct (X17_report_write_errors_propagate sample_host
              "2026-01-01T00:00:00" read_only "/proc/report.json")
    as [_ Hraise].
  split.
  - apply Hempty. reflexivity.
  - destruct (generate_report sample_host "2026-01-01T00:00:00" read_only None)
      as [report|e] eqn:Hr.
    + apply (Hraise report OSError); reflexivity.
    + vm_compute in Hr. discriminate Hr.
Defined.

(** X18.  When the process listing fails, by a timeout, an exception or an
    exit code that is not zero, [generate_report] still returns a report:
    the one with the time stamp, no process and no warning. *)
Theorem X18_failed_listing_gives_empty_report :
  forall (subprocess_run : list string -> result CompletedProcess)
         (now_isoformat : string)
         (dump_json : string -> pyval -> result unit),
    invocation_failed (subprocess_run jps_argv) ->
    generate_report subprocess_run now_isoformat dump_json None
    = Ok (VDict (report_of now_isoformat [])).
Proof.
  intros run now dump Hfail. unfold generate_report.
  now rewrite (get_java_processes_failed run Hfail).
Qed.

Lemma X18_witness :
  generate_report timed_out "2026-01-01T00:00:00" writable None
  = Ok (VDict (report_of "2026-01-01T00:00:00" [])).
Proof.
  apply X18_failed_listing_gives_empty_report. exact I.
Defined.
